(** * Authentication and account lockout of the user-management backend

    A shallow embedding of [src/users/users.service.ts] (class
    [UsersService]) and [src/auth/auth.service.ts] (class [AuthService]),
    with the table [users] of [src/database/schema.ts] as the store.

    Conventions of the embedding:
    - a JavaScript [string] is a [string] of 8-bit characters, and
      [toLowerCase] maps the letters A-Z to a-z;
    - a [Date] or a [timestamp] column is a [Z], the number of milliseconds
      since the epoch; [new Date()] and [Date.now()] read the parameter
      [now] of the operation;
    - a nullable column or an optional property is an [option];
    - the table is the list of its rows, in insertion order;
    - an [async] method is a computation in the monad [M], which threads
      the table and stops at the first exception thrown;
    - the injected collaborators ([bcrypt], [JwtService], [AppConfig]) are
      section variables. *)

From Stdlib Require Import String Ascii List ZArith Bool Lia.
Import ListNotations.
Open Scope string_scope.
Open Scope Z_scope.

Set Implicit Arguments.

(** ** Strings *)

Definition is_upper (c : ascii) : bool :=
  let n := nat_of_ascii c in (Nat.leb 65 n && Nat.leb n 90)%bool.

Definition lower_ascii (c : ascii) : ascii :=
  if is_upper c then ascii_of_nat (nat_of_ascii c + 32) else c.

Fixpoint toLowerCase (s : string) : string :=
  match s with
  | EmptyString => EmptyString
  | String c s' => String (lower_ascii c) (toLowerCase s')
  end.

Fixpoint has_uppercase (s : string) : bool :=
  match s with
  | EmptyString => false
  | String c s' => (is_upper c || has_uppercase s')%bool
  end.

(** JavaScript truthiness of a possibly absent string: [undefined] and the
    empty string are falsy. *)
Definition truthy (o : option string) : bool :=
  match o with
  | Some EmptyString => false
  | Some _ => true
  | None => false
  end.

(** [n || d] on a possibly absent number: [undefined], [null] and [0] are
    falsy. *)
Definition num_or (n : option Z) (d : Z) : Z :=
  match n with
  | Some 0 => d
  | Some v => v
  | None => d
  end.

(** [o?.toLowerCase()] *)
Definition opt_lower (o : option string) : option string :=
  option_map toLowerCase o.

(** [x === o] for a string [x] and a possibly absent string [o]. *)
Definition eq_opt_string (x : string) (o : option string) : bool :=
  match o with
  | Some y => String.eqb x y
  | None => false
  end.

(** ** The table [users] (src/database/schema.ts) *)

Inductive UserRole := USER | ADMIN | MODERATOR.

Module users.
Record User := mkUser {
  id : string;
  email : string;
  username : string;
  firstName : string;
  lastName : string;
  password : string;
  role : UserRole;
  profilePicture : option string;
  isActive : bool;
  isEmailVerified : bool;
  emailVerificationToken : option string;
  passwordResetToken : option string;
  passwordResetExpires : option Z;
  lastLoginAt : option Z;
  loginAttempts : option Z;
  lockUntil : option Z;
  twoFactorSecret : option string;
  isTwoFactorEnabled : bool;
  createdAt : Z;
  updatedAt : Z
}.
End users.
Definition User : Type := users.User.

Definition Store := list User.

(** ** Exceptions and the monad of the service methods *)

Inductive Exception :=
| UnauthorizedException (message : string)
| BadRequestException (message : string)
| ConflictException (message : string)
| NotFoundException (message : string)
| DatabaseError (code : string)
| JwtError (name : string).

Inductive Result (A : Type) :=
| Ok (a : A)
| Err (e : Exception).
Arguments Err {A} e.

Definition M (A : Type) : Type := Store -> Result A * Store.

Definition ret {A} (a : A) : M A := fun s => (Ok a, s).

Definition throw {A} (e : Exception) : M A := fun s => (Err e, s).

Definition bind {A B} (m : M A) (k : A -> M B) : M B :=
  fun s =>
    match m s with
    | (Ok a, s') => k a s'
    | (Err e, s') => (Err e, s')
    end.

(** [try { m } catch (error) { h error }] *)
Definition try_catch {A} (m : M A) (h : Exception -> M A) : M A :=
  fun s =>
    match m s with
    | (Ok a, s') => (Ok a, s')
    | (Err e, s') => h e s'
    end.

Declare Scope monad_scope.
Delimit Scope monad_scope with monad.
Notation "x <- m ;; k" := (bind m (fun x => k))
  (at level 61, m at next level, right associativity) : monad_scope.
Notation "m ;; k" := (bind m (fun _ => k))
  (at level 61, right associativity) : monad_scope.
Open Scope monad_scope.

(** ** The query builder, as far as the services use it *)

(** [const [row] = await query] *)
Definition first {A} (l : list A) : option A :=
  match l with
  | [] => None
  | x :: _ => Some x
  end.

(** [db.select().from(users).where(p)] *)
Definition db_select (p : User -> bool) : M (list User) :=
  fun s => (Ok (filter p s), s).

Definition unique_violation : string := "23505".

Definition occurrences (x : string) (l : list string) : nat :=
  length (filter (String.eqb x) l).

(** A row version [new] written over [old] clashes in [table] (the table
    after the statement) when it changed a unique column to a value that
    another row of [table] holds as well. *)
Definition key_clash (table : list User) (old new : User) : bool :=
  (negb (String.eqb (users.email new) (users.email old))
   && Nat.ltb 1 (occurrences (users.email new) (map users.email table)))
  || (negb (String.eqb (users.username new) (users.username old))
      && Nat.ltb 1 (occurrences (users.username new) (map users.username table))).

(** [db.update(users).set(f).where(p).returning()]: every row that
    satisfies [p] is rewritten by [f]; the statement is refused with
    SQLSTATE 23505 when a unique column would clash. *)
Definition db_update (p : User -> bool) (f : User -> User) : M (list User) :=
  fun s =>
    let table := map (fun r => if p r then f r else r) s in
    if existsb (fun r => p r && key_clash table r (f r)) s
    then (Err (DatabaseError unique_violation), s)
    else (Ok (map f (filter p s)), table).

(** [db.insert(users).values(row).returning()]: [id] is the primary key,
    [email] and [username] carry unique constraints. *)
Definition db_insert (row : User) : M (list User) :=
  fun s =>
    if existsb (fun r => String.eqb (users.id r) (users.id row)
                         || String.eqb (users.email r) (users.email row)
                         || String.eqb (users.username r) (users.username row)) s
    then (Err (DatabaseError unique_violation), s)
    else (Ok [row], (s ++ [row])%list).

(** [db.delete(users).where(p).returning()]: the rows that satisfy [p]
    leave the table and are returned. *)
Definition db_delete (p : User -> bool) : M (list User) :=
  fun s => (Ok (filter p s), filter (fun r => negb (p r)) s).

(** What other requests commit while this one is suspended at an [await]. *)
Definition interleave (other : Store -> Store) : M unit :=
  fun s => (Ok tt, other s).

(** ** Data transfer objects (src/users/dto, src/auth/dto) *)

Module UserResponseDto.
(** The properties marked [@Expose()] come first; those marked
    [@Exclude()] are still properties of the class, and are [undefined]
    on every object that [plainToClass] builds. *)
Record t := mk {
  id : string;
  email : string;
  username : string;
  firstName : string;
  lastName : string;
  fullName : string;
  role : UserRole;
  profilePicture : option string;
  isActive : bool;
  isEmailVerified : bool;
  isTwoFactorEnabled : bool;
  lastLoginAt : option Z;
  createdAt : Z;
  updatedAt : Z;
  password : option string;
  emailVerificationToken : option string;
  passwordResetToken : option string;
  passwordResetExpires : option Z;
  loginAttempts : option Z;
  lockUntil : option Z;
  twoFactorSecret : option string
}.
End UserResponseDto.

Module CreateUserDto.
Record t := mk {
  email : string;
  username : string;
  firstName : string;
  lastName : string;
  password : string;
  role : option UserRole;
  profilePicture : option string
}.
End CreateUserDto.

Module UpdateUserDto.
(** Every property is optional; the two reset fields may also be set to
    [null], which is the inner [None]. *)
Record t := mk {
  email : option string;
  username : option string;
  firstName : option string;
  lastName : option string;
  role : option UserRole;
  profilePicture : option string;
  isActive : option bool;
  isEmailVerified : option bool;
  isTwoFactorEnabled : option bool;
  password : option string;
  passwordResetToken : option (option string);
  passwordResetExpires : option (option Z)
}.
End UpdateUserDto.

Module ChangePasswordDto.
Record t := mk {
  currentPassword : string;
  newPassword : string;
  confirmPassword : string
}.
End ChangePasswordDto.

Module QueryUserDto.
(** The pagination options.  The filters and the sort field are left
    out: the call followed here, [findAll({ limit: 1000 })], sets none
    of them. *)
Record t := mk {
  page : option Z;
  limit : option Z
}.
End QueryUserDto.

Module PaginatedUserResponseDto.
Record t := mk {
  data : list UserResponseDto.t;
  total : Z;
  page : Z;
  limit : Z;
  totalPages : Z;
  hasNextPage : bool;
  hasPreviousPage : bool
}.
End PaginatedUserResponseDto.

Record LoginDto := mkLoginDto {
  login_email : string;
  login_password : string
}.

Record Tokens := mkTokens {
  accessToken : string;
  refreshToken : string
}.

Record AuthResponse := mkAuthResponse {
  auth_user : UserResponseDto.t;
  auth_accessToken : string;
  auth_refreshToken : option string
}.

Record MessageResponse := mkMessage { message : string }.

(** ** Injected collaborators *)

Record Bcrypt := mkBcrypt {
  bcrypt_hash : string -> Z -> string;
  bcrypt_compare : string -> string -> bool
}.

Record JwtPayload := mkJwtPayload {
  jwt_sub : string;
  jwt_email : string;
  jwt_username : string;
  jwt_role : UserRole
}.

Record RefreshTokenPayload := mkRefreshTokenPayload {
  refresh_sub : string;
  tokenVersion : Z
}.

Inductive Claims :=
| AccessClaims (p : JwtPayload)
| RefreshClaims (p : RefreshTokenPayload).

(** [verify] either throws (a malformed token, a wrong signature, an
    expired token: the name of the error is kept) or returns the payload,
    of which the callers read [sub]. *)
Record JwtService := mkJwtService {
  signAsync : Claims -> string -> string -> Z -> string;
  verify : string -> string -> Z -> string + string
}.

Record AppConfig := mkAppConfig {
  jwtSecret : string;
  jwtRefreshSecret : string;
  jwtExpiresIn : string;
  jwtRefreshExpiresIn : string;
  bcryptRounds : Z
}.

(** ** Pagination (src/common/utils/pagination.util.ts) *)

Module PaginationUtil.
Definition DEFAULT_PAGE : Z := 1.
Definition DEFAULT_LIMIT : Z := 10.
Definition MAX_LIMIT : Z := 100.

Definition validateAndNormalizePagination (options : QueryUserDto.t)
  : Z * Z * Z :=
  let page := Z.max 1 (num_or (QueryUserDto.page options) DEFAULT_PAGE) in
  let limit :=
    Z.min (Z.max 1 (num_or (QueryUserDto.limit options) DEFAULT_LIMIT))
          MAX_LIMIT in
  let offset := (page - 1) * limit in
  (page, limit, offset).

Definition allowedSortFields : list string :=
  ["id"; "email"; "username"; "firstName"; "lastName"; "role"; "isActive";
   "isEmailVerified"; "createdAt"; "updatedAt"; "lastLoginAt"].

Definition isValidSortField (field : string) : bool :=
  existsb (String.eqb field) allowedSortFields.
End PaginationUtil.

(** ** Filters (src/common/utils/filter.util.ts) *)

Inductive SortOrder := ASC | DESC.

(** The text that [sql.raw] receives, [column] between double quotes and
    the direction after it, kept as its two parts. *)
Record OrderBy := mkOrderBy {
  order_column : string;
  order_direction : SortOrder
}.

(** The names of the columns of the table [users]. *)
Definition users_columns : list string :=
  ["id"; "email"; "username"; "first_name"; "last_name"; "password"; "role";
   "profile_picture"; "is_active"; "is_email_verified";
   "email_verification_token"; "password_reset_token";
   "password_reset_expires"; "last_login_at"; "login_attempts"; "lock_until";
   "two_factor_secret"; "is_two_factor_enabled"; "created_at"; "updated_at"].

Module FilterUtil.

Definition allowedSortFields : list string :=
  ["id"; "email"; "username"; "firstName"; "lastName"; "role"; "isActive";
   "isEmailVerified"; "createdAt"; "updatedAt"; "lastLoginAt"].

Definition fieldMap : list (string * string) :=
  [("firstName", "first_name"); ("lastName", "last_name");
   ("isActive", "is_active"); ("isEmailVerified", "is_email_verified");
   ("isTwoFactorEnabled", "is_two_factor_enabled");
   ("profilePicture", "profile_picture"); ("lastLoginAt", "last_login_at");
   ("createdAt", "created_at"); ("updatedAt", "updated_at")].

Fixpoint lookup (field : string) (m : list (string * string)) : option string :=
  match m with
  | [] => None
  | (k, v) :: m' => if String.eqb field k then Some v else lookup field m'
  end.

(** [fieldMap[field] || field]; the one caller passes an allowed sort
    field. *)
Definition convertToDbField (field : string) : string :=
  match lookup field fieldMap with
  | Some "" => field
  | Some dbField => dbField
  | None => field
  end.

(** An absent [sortOrder] is the default ['asc']. *)
Definition buildSortCondition (sortBy : option string)
           (sortOrder : option SortOrder) : OrderBy :=
  match sortBy with
  | None => {| order_column := "created_at"; order_direction := DESC |}
  | Some "" => {| order_column := "created_at"; order_direction := DESC |}
  | Some field =>
      if negb (existsb (String.eqb field) allowedSortFields)
      then {| order_column := "created_at"; order_direction := DESC |}
      else
        let dbField := convertToDbField field in
        match sortOrder with
        | Some DESC => {| order_column := dbField; order_direction := DESC |}
        | _ => {| order_column := dbField; order_direction := ASC |}
        end
  end.

(** The characters that [String.prototype.trim] removes, among the 8-bit
    ones: tab, line feed, vertical tab, form feed, carriage return, space
    and no-break space. *)
Definition is_space (c : ascii) : bool :=
  let n := nat_of_ascii c in
  (Nat.leb 9 n && Nat.leb n 13) || Nat.eqb n 32 || Nat.eqb n 160.

Fixpoint trimStart (s : string) : string :=
  match s with
  | EmptyString => EmptyString
  | String c s' => if is_space c then trimStart s' else s
  end.

(** [trimEnd] keeps a character when it is not a space or when something
    is left after it. *)
Fixpoint trimEnd (s : string) : string :=
  match s with
  | EmptyString => EmptyString
  | String c s' =>
      match trimEnd s' with
      | EmptyString => if is_space c then EmptyString else String c EmptyString
      | rest => String c rest
      end
  end.

Definition trim (s : string) : string := trimEnd (trimStart s).

(** The characters of [/[%_\\]/]: percent sign, underscore, backslash. *)
Definition is_wildcard (c : ascii) : bool :=
  let n := nat_of_ascii c in
  Nat.eqb n 37 || Nat.eqb n 95 || Nat.eqb n 92.

Definition backslash : ascii := ascii_of_nat 92.

(** [.replace(/[%_\\]/g, '\\$&')] *)
Fixpoint escape_wildcards (s : string) : string :=
  match s with
  | EmptyString => EmptyString
  | String c s' =>
      if is_wildcard c
      then String backslash (String c (escape_wildcards s'))
      else String c (escape_wildcards s')
  end.

Definition sanitizeSearchTerm (search : option string) : option string :=
  match search with
  | None => None
  | Some "" => None
  | Some term =>
      let sanitized := trim (escape_wildcards term) in
      if Nat.ltb 0 (String.length sanitized) then Some sanitized else None
  end.

End FilterUtil.

(** ** UsersService (src/users/users.service.ts) *)

Module UsersService.
Section WithBcrypt.

Variable bcrypt : Bcrypt.

Definition saltRounds : Z := 12.
Definition maxLoginAttempts : Z := 5.
Definition lockTime : Z := 2 * 60 * 60 * 1000.

Definition hashPassword (password : string) : string :=
  bcrypt_hash bcrypt password saltRounds.

(** [plainToClass(UserResponseDto, user, { excludeExtraneousValues: true })]:
    only the exposed properties are copied, and [fullName] is computed
    from the two names. *)
Definition transformToResponseDto (user : User) : UserResponseDto.t :=
  {| UserResponseDto.id := users.id user;
     UserResponseDto.email := users.email user;
     UserResponseDto.username := users.username user;
     UserResponseDto.firstName := users.firstName user;
     UserResponseDto.lastName := users.lastName user;
     UserResponseDto.fullName :=
       users.firstName user ++ " " ++ users.lastName user;
     UserResponseDto.role := users.role user;
     UserResponseDto.profilePicture := users.profilePicture user;
     UserResponseDto.isActive := users.isActive user;
     UserResponseDto.isEmailVerified := users.isEmailVerified user;
     UserResponseDto.isTwoFactorEnabled := users.isTwoFactorEnabled user;
     UserResponseDto.lastLoginAt := users.lastLoginAt user;
     UserResponseDto.createdAt := users.createdAt user;
     UserResponseDto.updatedAt := users.updatedAt user;
     UserResponseDto.password := None;
     UserResponseDto.emailVerificationToken := None;
     UserResponseDto.passwordResetToken := None;
     UserResponseDto.passwordResetExpires := None;
     UserResponseDto.loginAttempts := None;
     UserResponseDto.lockUntil := None;
     UserResponseDto.twoFactorSecret := None |}.

Definition findUserById (id : string) : M User :=
  rows <- db_select (fun r => String.eqb (users.id r) id) ;;
  match first rows with
  | None => throw (NotFoundException "User not found")
  | Some user => ret user
  end.

Definition findOne (id : string) : M UserResponseDto.t :=
  user <- findUserById id ;;
  ret (transformToResponseDto user).

Definition findByEmail (email : string) : M (option UserResponseDto.t) :=
  rows <- db_select (fun r => String.eqb (users.email r) (toLowerCase email)) ;;
  ret (option_map transformToResponseDto (first rows)).

Definition checkUserExists (email username excludeId : option string)
  : M unit :=
  if negb (truthy email) && negb (truthy username) then ret tt
  else
    let conditions (r : User) : bool :=
      (truthy email && eq_opt_string (users.email r) (opt_lower email))
      || (truthy username
          && eq_opt_string (users.username r) (opt_lower username)) in
    let whereClause (r : User) : bool :=
      if truthy excludeId
      then conditions r && negb (eq_opt_string (users.id r) excludeId)
      else conditions r in
    rows <- db_select whereClause ;;
    match first rows with
    | None => ret tt
    | Some existingUser =>
        if eq_opt_string (users.email existingUser) (opt_lower email)
        then throw (ConflictException "User with this email already exists")
        else if eq_opt_string (users.username existingUser)
                              (opt_lower username)
        then throw (ConflictException
                      "User with this username already exists")
        else ret tt
    end.

(** The [catch] clause of [create] and of [update]. *)
Definition on_unique_violation {A} (error : Exception) : M A :=
  match error with
  | DatabaseError code =>
      if String.eqb code "23505"
      then throw (ConflictException
                    "User with this email or username already exists")
      else throw error
  | _ => throw error
  end.

(** The row that [insert] builds from the DTO, the hashed password and
    the defaults of the schema; [newId] is what [defaultRandom()] draws. *)
Definition new_row (newId : string) (now : Z) (dto : CreateUserDto.t)
           (hashedPassword : string) : User :=
  {| users.id := newId;
     users.email := CreateUserDto.email dto;
     users.username := CreateUserDto.username dto;
     users.firstName := CreateUserDto.firstName dto;
     users.lastName := CreateUserDto.lastName dto;
     users.password := hashedPassword;
     users.role := match CreateUserDto.role dto with
                   | Some r => r
                   | None => USER
                   end;
     users.profilePicture := CreateUserDto.profilePicture dto;
     users.isActive := true;
     users.isEmailVerified := false;
     users.emailVerificationToken := None;
     users.passwordResetToken := None;
     users.passwordResetExpires := None;
     users.lastLoginAt := None;
     users.loginAttempts := Some 0;
     users.lockUntil := None;
     users.twoFactorSecret := None;
     users.isTwoFactorEnabled := false;
     users.createdAt := now;
     users.updatedAt := now |}.

(** [other] is what concurrent requests commit between the check and the
    insert; a request that runs alone has [other := fun s => s]. *)
Definition create (other : Store -> Store) (newId : string) (now : Z)
           (createUserDto : CreateUserDto.t) : M (option UserResponseDto.t) :=
  checkUserExists (Some (CreateUserDto.email createUserDto))
                  (Some (CreateUserDto.username createUserDto)) None ;;
  let hashedPassword := hashPassword (CreateUserDto.password createUserDto) in
  interleave other ;;
  try_catch
    (rows <- db_insert (new_row newId now createUserDto hashedPassword) ;;
     ret (option_map transformToResponseDto (first rows)))
    on_unique_violation.

Definition or_else {A} (o : option A) (d : A) : A :=
  match o with
  | Some v => v
  | None => d
  end.

(** [.set({ ...updateUserDto, updatedAt: new Date() })] *)
Definition apply_update (dto : UpdateUserDto.t) (now : Z) (r : User) : User :=
  {| users.id := users.id r;
     users.email := or_else (UpdateUserDto.email dto) (users.email r);
     users.username := or_else (UpdateUserDto.username dto) (users.username r);
     users.firstName :=
       or_else (UpdateUserDto.firstName dto) (users.firstName r);
     users.lastName := or_else (UpdateUserDto.lastName dto) (users.lastName r);
     users.password := or_else (UpdateUserDto.password dto) (users.password r);
     users.role := or_else (UpdateUserDto.role dto) (users.role r);
     users.profilePicture :=
       match UpdateUserDto.profilePicture dto with
       | Some p => Some p
       | None => users.profilePicture r
       end;
     users.isActive := or_else (UpdateUserDto.isActive dto) (users.isActive r);
     users.isEmailVerified :=
       or_else (UpdateUserDto.isEmailVerified dto) (users.isEmailVerified r);
     users.emailVerificationToken := users.emailVerificationToken r;
     users.passwordResetToken :=
       or_else (UpdateUserDto.passwordResetToken dto)
               (users.passwordResetToken r);
     users.passwordResetExpires :=
       or_else (UpdateUserDto.passwordResetExpires dto)
               (users.passwordResetExpires r);
     users.lastLoginAt := users.lastLoginAt r;
     users.loginAttempts := users.loginAttempts r;
     users.lockUntil := users.lockUntil r;
     users.twoFactorSecret := users.twoFactorSecret r;
     users.isTwoFactorEnabled :=
       or_else (UpdateUserDto.isTwoFactorEnabled dto)
               (users.isTwoFactorEnabled r);
     users.createdAt := users.createdAt r;
     users.updatedAt := now |}.

Definition update (other : Store -> Store) (id : string) (now : Z)
           (updateUserDto : UpdateUserDto.t) : M (option UserResponseDto.t) :=
  findUserById id ;;
  (if truthy (UpdateUserDto.email updateUserDto)
      || truthy (UpdateUserDto.username updateUserDto)
   then checkUserExists (UpdateUserDto.email updateUserDto)
                        (UpdateUserDto.username updateUserDto) (Some id)
   else ret tt) ;;
  interleave other ;;
  try_catch
    (rows <- db_update (fun r => String.eqb (users.id r) id)
                       (apply_update updateUserDto now) ;;
     ret (option_map transformToResponseDto (first rows)))
    on_unique_violation.

(** [ORDER BY "created_at" DESC], the default of
    [FilterUtil.buildSortCondition]; rows created at the same instant
    keep their table order. *)
Fixpoint insert_desc (r : User) (l : list User) : list User :=
  match l with
  | [] => [r]
  | x :: l' =>
      if users.createdAt x <? users.createdAt r
      then r :: l
      else x :: insert_desc r l'
  end.

Definition order_by_created_at_desc (l : list User) : list User :=
  fold_right insert_desc [] l.

Definition findAll (queryDto : QueryUserDto.t)
  : M PaginatedUserResponseDto.t :=
  let '(page, limit, offset) :=
    PaginationUtil.validateAndNormalizePagination queryDto in
  counted <- db_select (fun _ => true) ;;
  let total := Z.of_nat (length counted) in
  rows <- db_select (fun _ => true) ;;
  let userList :=
    firstn (Z.to_nat limit)
           (skipn (Z.to_nat offset) (order_by_created_at_desc rows)) in
  let userResponseList := map transformToResponseDto userList in
  let totalPages := (total + limit - 1) / limit in
  ret {| PaginatedUserResponseDto.data := userResponseList;
         PaginatedUserResponseDto.total := total;
         PaginatedUserResponseDto.page := page;
         PaginatedUserResponseDto.limit := limit;
         PaginatedUserResponseDto.totalPages := totalPages;
         PaginatedUserResponseDto.hasNextPage := page <? totalPages;
         PaginatedUserResponseDto.hasPreviousPage := 1 <? page |}.

(** The two [.set(...)] of [updateLoginAttempts]. *)
Definition set_reset (now : Z) (r : User) : User :=
  {| users.id := users.id r;
     users.email := users.email r;
     users.username := users.username r;
     users.firstName := users.firstName r;
     users.lastName := users.lastName r;
     users.password := users.password r;
     users.role := users.role r;
     users.profilePicture := users.profilePicture r;
     users.isActive := users.isActive r;
     users.isEmailVerified := users.isEmailVerified r;
     users.emailVerificationToken := users.emailVerificationToken r;
     users.passwordResetToken := users.passwordResetToken r;
     users.passwordResetExpires := users.passwordResetExpires r;
     users.lastLoginAt := Some now;
     users.loginAttempts := Some 0;
     users.lockUntil := None;
     users.twoFactorSecret := users.twoFactorSecret r;
     users.isTwoFactorEnabled := users.isTwoFactorEnabled r;
     users.createdAt := users.createdAt r;
     users.updatedAt := now |}.

Definition set_failure (attempts : Z) (lockUntil : option Z) (now : Z)
           (r : User) : User :=
  {| users.id := users.id r;
     users.email := users.email r;
     users.username := users.username r;
     users.firstName := users.firstName r;
     users.lastName := users.lastName r;
     users.password := users.password r;
     users.role := users.role r;
     users.profilePicture := users.profilePicture r;
     users.isActive := users.isActive r;
     users.isEmailVerified := users.isEmailVerified r;
     users.emailVerificationToken := users.emailVerificationToken r;
     users.passwordResetToken := users.passwordResetToken r;
     users.passwordResetExpires := users.passwordResetExpires r;
     users.lastLoginAt := users.lastLoginAt r;
     users.loginAttempts := Some attempts;
     users.lockUntil := lockUntil;
     users.twoFactorSecret := users.twoFactorSecret r;
     users.isTwoFactorEnabled := users.isTwoFactorEnabled r;
     users.createdAt := users.createdAt r;
     users.updatedAt := now |}.

Definition updateLoginAttempts (email : string) (reset : bool) (now : Z)
  : M unit :=
  if reset then
    db_update (fun r => String.eqb (users.email r) email) (set_reset now) ;;
    ret tt
  else
    rows <- db_select (fun r => String.eqb (users.email r) email) ;;
    match first rows with
    | Some user =>
        let attempts :=
          num_or (users.loginAttempts user) 0 + 1 in
        let lockUntil :=
          if maxLoginAttempts <=? attempts
          then Some (now + lockTime)
          else None in
        db_update (fun r => String.eqb (users.email r) email)
                  (set_failure attempts lockUntil now) ;;
        ret tt
    | None => ret tt
    end.

Definition isAccountLocked (email : string) (now : Z) : M bool :=
  rows <- db_select (fun r => String.eqb (users.email r) email) ;;
  match first rows with
  | None => ret false
  | Some user =>
      match users.lockUntil user with
      | None => ret false
      | Some lockUntil =>
          if now <? lockUntil then ret true
          else
            updateLoginAttempts email true now ;;
            ret false
      end
  end.

Definition findByUsername (username : string) : M (option UserResponseDto.t) :=
  rows <- db_select
            (fun r => String.eqb (users.username r) (toLowerCase username)) ;;
  ret (option_map transformToResponseDto (first rows)).

(** [.set({ password: hashedNewPassword, updatedAt: new Date() })] *)
Definition set_password (hashedNewPassword : string) (now : Z) (r : User)
  : User :=
  {| users.id := users.id r;
     users.email := users.email r;
     users.username := users.username r;
     users.firstName := users.firstName r;
     users.lastName := users.lastName r;
     users.password := hashedNewPassword;
     users.role := users.role r;
     users.profilePicture := users.profilePicture r;
     users.isActive := users.isActive r;
     users.isEmailVerified := users.isEmailVerified r;
     users.emailVerificationToken := users.emailVerificationToken r;
     users.passwordResetToken := users.passwordResetToken r;
     users.passwordResetExpires := users.passwordResetExpires r;
     users.lastLoginAt := users.lastLoginAt r;
     users.loginAttempts := users.loginAttempts r;
     users.lockUntil := users.lockUntil r;
     users.twoFactorSecret := users.twoFactorSecret r;
     users.isTwoFactorEnabled := users.isTwoFactorEnabled r;
     users.createdAt := users.createdAt r;
     users.updatedAt := now |}.

Definition changePassword (id : string) (now : Z)
           (changePasswordDto : ChangePasswordDto.t) : M MessageResponse :=
  let currentPassword := ChangePasswordDto.currentPassword changePasswordDto in
  let newPassword := ChangePasswordDto.newPassword changePasswordDto in
  let confirmPassword := ChangePasswordDto.confirmPassword changePasswordDto in
  if negb (String.eqb newPassword confirmPassword) then
    throw (BadRequestException "New password and confirm password do not match")
  else
    user <- findUserById id ;;
    if negb (bcrypt_compare bcrypt currentPassword (users.password user)) then
      throw (UnauthorizedException "Current password is incorrect")
    else
      let hashedNewPassword := hashPassword newPassword in
      db_update (fun r => String.eqb (users.id r) id)
                (set_password hashedNewPassword now) ;;
      ret {| message := "Password changed successfully" |}.

Definition remove (id : string) : M MessageResponse :=
  findUserById id ;;
  rows <- db_delete (fun r => String.eqb (users.id r) id) ;;
  match first rows with
  | None => throw (NotFoundException "User not found")
  | Some _ => ret {| message := "User deleted successfully" |}
  end.

(** [update(id, { isActive: false, updatedAt: new Date() })]; [update]
    writes its own [updatedAt] over the one passed. *)
Definition softDelete (other : Store -> Store) (id : string) (now : Z)
  : M (option UserResponseDto.t) :=
  update other id now
         {| UpdateUserDto.email := None;
            UpdateUserDto.username := None;
            UpdateUserDto.firstName := None;
            UpdateUserDto.lastName := None;
            UpdateUserDto.role := None;
            UpdateUserDto.profilePicture := None;
            UpdateUserDto.isActive := Some false;
            UpdateUserDto.isEmailVerified := None;
            UpdateUserDto.isTwoFactorEnabled := None;
            UpdateUserDto.password := None;
            UpdateUserDto.passwordResetToken := None;
            UpdateUserDto.passwordResetExpires := None |}.

End WithBcrypt.
End UsersService.

(** ** AuthService (src/auth/auth.service.ts) *)

Module AuthService.
Section WithCollaborators.

Variable bcrypt : Bcrypt.
Variable jwtService : JwtService.
Variable appConfig : AppConfig.

Definition alone : Store -> Store := fun s => s.

Definition verifyPassword (plainPassword hashedPassword : string) : bool :=
  bcrypt_compare bcrypt plainPassword hashedPassword.

Definition hashPassword (password : string) : string :=
  bcrypt_hash bcrypt password (bcryptRounds appConfig).

(** The caller passes a row of the table or a [UserResponseDto]; the
    four properties read here are the same on both. *)
Definition generateTokens (id email username : string) (role : UserRole)
           (now : Z) : M Tokens :=
  let payload :=
    {| jwt_sub := id; jwt_email := email;
       jwt_username := username; jwt_role := role |} in
  let refreshPayload := {| refresh_sub := id; tokenVersion := 1 |} in
  ret {| accessToken :=
           signAsync jwtService (AccessClaims payload)
                     (jwtSecret appConfig) (jwtExpiresIn appConfig) now;
         refreshToken :=
           signAsync jwtService (RefreshClaims refreshPayload)
                     (jwtRefreshSecret appConfig)
                     (jwtRefreshExpiresIn appConfig) now |}.

Definition findUserForAuthentication (email : string) : M (option User) :=
  rows <- db_select (fun r => String.eqb (users.email r) (toLowerCase email)) ;;
  ret (first rows).

Definition locked_message : string :=
  "Account is temporarily locked due to too many failed login attempts".

Definition login (loginDto : LoginDto) (now : Z) : M AuthResponse :=
  let email := login_email loginDto in
  let password := login_password loginDto in
  isLocked <- UsersService.isAccountLocked email now ;;
  if isLocked : bool then throw (UnauthorizedException locked_message)
  else
    found <- findUserForAuthentication email ;;
    match found with
    | None =>
        UsersService.updateLoginAttempts email false now ;;
        throw (UnauthorizedException "Invalid credentials")
    | Some user =>
        if negb (verifyPassword password (users.password user)) then
          UsersService.updateLoginAttempts email false now ;;
          throw (UnauthorizedException "Invalid credentials")
        else if negb (users.isActive user) then
          throw (UnauthorizedException "Account is deactivated")
        else
          UsersService.updateLoginAttempts email true now ;;
          tokens <- generateTokens (users.id user) (users.email user)
                                   (users.username user) (users.role user)
                                   now ;;
          userResponse <- UsersService.findOne (users.id user) ;;
          ret {| auth_user := userResponse;
                 auth_accessToken := accessToken tokens;
                 auth_refreshToken := Some (refreshToken tokens) |}
    end.

Definition refreshTokens (token : string) (now : Z) : M Tokens :=
  try_catch
    (match verify jwtService token (jwtRefreshSecret appConfig) now with
     | inl name => throw (JwtError name)
     | inr sub =>
         user <- UsersService.findOne sub ;;
         if negb (UserResponseDto.isActive user)
         then throw (UnauthorizedException "Invalid refresh token")
         else generateTokens (UserResponseDto.id user)
                             (UserResponseDto.email user)
                             (UserResponseDto.username user)
                             (UserResponseDto.role user) now
     end)
    (fun _ => throw (UnauthorizedException "Invalid refresh token")).

Definition reset_sent : string :=
  "If the email exists, a password reset link has been sent".

(** [resetToken] is what [generatePasswordResetToken] draws from
    [Math.random()]. *)
Definition forgotPassword (email : string) (resetToken : string) (now : Z)
  : M MessageResponse :=
  found <- UsersService.findByEmail email ;;
  match found with
  | None => ret {| message := reset_sent |}
  | Some user =>
      let resetExpires := now + 3600000 in
      UsersService.update alone (UserResponseDto.id user) now
        {| UpdateUserDto.email := None;
           UpdateUserDto.username := None;
           UpdateUserDto.firstName := None;
           UpdateUserDto.lastName := None;
           UpdateUserDto.role := None;
           UpdateUserDto.profilePicture := None;
           UpdateUserDto.isActive := None;
           UpdateUserDto.isEmailVerified := None;
           UpdateUserDto.isTwoFactorEnabled := None;
           UpdateUserDto.password := None;
           UpdateUserDto.passwordResetToken := Some (Some resetToken);
           UpdateUserDto.passwordResetExpires := Some (Some resetExpires) |} ;;
      ret {| message := reset_sent |}
  end.

(** The predicate of [users.data.find(...)] in [resetPassword]. *)
Definition matches_reset_token (token : string) (now : Z)
           (u : UserResponseDto.t) : bool :=
  match UserResponseDto.passwordResetToken u with
  | Some t =>
      String.eqb t token
      && match UserResponseDto.passwordResetExpires u with
         | Some expires => now <? expires
         | None => false
         end
  | None => false
  end.

Definition resetPassword (token newPassword : string) (now : Z)
  : M MessageResponse :=
  found <- UsersService.findAll
             {| QueryUserDto.page := None; QueryUserDto.limit := Some 1000 |} ;;
  match find (matches_reset_token token now)
             (PaginatedUserResponseDto.data found) with
  | None => throw (BadRequestException "Invalid or expired reset token")
  | Some user =>
      UsersService.update alone (UserResponseDto.id user) now
        {| UpdateUserDto.email := None;
           UpdateUserDto.username := None;
           UpdateUserDto.firstName := None;
           UpdateUserDto.lastName := None;
           UpdateUserDto.role := None;
           UpdateUserDto.profilePicture := None;
           UpdateUserDto.isActive := None;
           UpdateUserDto.isEmailVerified := None;
           UpdateUserDto.isTwoFactorEnabled := None;
           UpdateUserDto.password := Some (hashPassword newPassword);
           UpdateUserDto.passwordResetToken := Some None;
           UpdateUserDto.passwordResetExpires := Some None |} ;;
      ret {| message := "Password reset successfully" |}
  end.

Definition validateUser (payload : JwtPayload)
  : M (option UserResponseDto.t) :=
  try_catch
    (user <- UsersService.findOne (jwt_sub payload) ;;
     if negb (UserResponseDto.isActive user) then ret None
     else ret (Some user))
    (fun _ => ret None).

Definition logout (userId : string) : M MessageResponse :=
  ret {| message := "Logged out successfully" |}.

Definition changePassword (userId currentPassword newPassword : string)
           (now : Z) : M MessageResponse :=
  UsersService.changePassword
    bcrypt userId now
    {| ChangePasswordDto.currentPassword := currentPassword;
       ChangePasswordDto.newPassword := newPassword;
       ChangePasswordDto.confirmPassword := newPassword |}.

End WithCollaborators.
End AuthService.

(** ** JwtStrategy (src/auth/strategies/jwt.strategy.ts) *)

Module JwtStrategy.

Definition validate (payload : JwtPayload) : M UserResponseDto.t :=
  found <- AuthService.validateUser payload ;;
  match found with
  | None => throw (UnauthorizedException "Invalid token or user not found")
  | Some user => ret user
  end.

End JwtStrategy.

(** ** UsersController (src/users/users.controller.ts) *)

Module UsersController.

(** Only the three allowed properties of the body are passed on; a
    property that is [undefined] is left out. *)
Definition updateProfile (other : Store -> Store) (user : UserResponseDto.t)
           (updateUserDto : UpdateUserDto.t) (now : Z)
  : M (option UserResponseDto.t) :=
  let filteredUpdate :=
    {| UpdateUserDto.email := None;
       UpdateUserDto.username := None;
       UpdateUserDto.firstName := UpdateUserDto.firstName updateUserDto;
       UpdateUserDto.lastName := UpdateUserDto.lastName updateUserDto;
       UpdateUserDto.role := None;
       UpdateUserDto.profilePicture :=
         UpdateUserDto.profilePicture updateUserDto;
       UpdateUserDto.isActive := None;
       UpdateUserDto.isEmailVerified := None;
       UpdateUserDto.isTwoFactorEnabled := None;
       UpdateUserDto.password := None;
       UpdateUserDto.passwordResetToken := None;
       UpdateUserDto.passwordResetExpires := None |} in
  UsersService.update other (UserResponseDto.id user) now filteredUpdate.


Definition set_active (active : bool) : UpdateUserDto.t :=
  {| UpdateUserDto.email := None;
     UpdateUserDto.username := None;
     UpdateUserDto.firstName := None;
     UpdateUserDto.lastName := None;
     UpdateUserDto.role := None;
     UpdateUserDto.profilePicture := None;
     UpdateUserDto.isActive := Some active;
     UpdateUserDto.isEmailVerified := None;
     UpdateUserDto.isTwoFactorEnabled := None;
     UpdateUserDto.password := None;
     UpdateUserDto.passwordResetToken := None;
     UpdateUserDto.passwordResetExpires := None |}.

Definition activateUser (other : Store -> Store) (id : string) (now : Z)
  : M (option UserResponseDto.t) :=
  UsersService.update other id now (set_active true).

Definition deactivateUser (other : Store -> Store) (id : string) (now : Z)
  : M (option UserResponseDto.t) :=
  UsersService.update other id now (set_active false).

End UsersController.

(** ** Collaborators used to run the services on concrete inputs *)

Module Fixture.
(** A hasher that tags the password, and a signer that writes the secret
    in front of the subject. *)
Definition bcrypt : Bcrypt :=
  {| bcrypt_hash := fun password _ => "$2b$" ++ password;
     bcrypt_compare := fun plain hashed => String.eqb hashed ("$2b$" ++ plain) |}.

Definition claims_sub (c : Claims) : string :=
  match c with
  | AccessClaims p => jwt_sub p
  | RefreshClaims p => refresh_sub p
  end.

Definition jwtService : JwtService :=
  {| signAsync := fun claims secret _ _ => secret ++ ":" ++ claims_sub claims;
     verify := fun token secret _ =>
       if String.prefix (secret ++ ":") token
       then inr (String.substring (String.length secret + 1)
                                  (String.length token) token)
       else inl "JsonWebTokenError" |}.

Definition appConfig : AppConfig :=
  {| jwtSecret := "access-secret";
     jwtRefreshSecret := "refresh-secret";
     jwtExpiresIn := "15m";
     jwtRefreshExpiresIn := "7d";
     bcryptRounds := 12 |}.

(** The account of the scenarios of the specification: "a@x.com" with
    the password "Right1!". *)
Definition account (attempts : option Z) (lock : option Z) : User :=
  {| users.id := "u1";
     users.email := "a@x.com";
     users.username := "alice";
     users.firstName := "Alice";
     users.lastName := "Doe";
     users.password := "$2b$Right1!";
     users.role := USER;
     users.profilePicture := None;
     users.isActive := true;
     users.isEmailVerified := true;
     users.emailVerificationToken := None;
     users.passwordResetToken := None;
     users.passwordResetExpires := None;
     users.lastLoginAt := None;
     users.loginAttempts := attempts;
     users.lockUntil := lock;
     users.twoFactorSecret := None;
     users.isTwoFactorEnabled := false;
     users.createdAt := 0;
     users.updatedAt := 0 |}.

Definition other_account : User :=
  {| users.id := "u2";
     users.email := "b@x.com";
     users.username := "bob";
     users.firstName := "Bob";
     users.lastName := "Roe";
     users.password := "$2b$Secret22!";
     users.role := ADMIN;
     users.profilePicture := None;
     users.isActive := false;
     users.isEmailVerified := true;
     users.emailVerificationToken := None;
     users.passwordResetToken := Some "tok";
     users.passwordResetExpires := Some 5000;
     users.lastLoginAt := None;
     users.loginAttempts := Some 0;
     users.lockUntil := None;
     users.twoFactorSecret := None;
     users.isTwoFactorEnabled := false;
     users.createdAt := 10;
     users.updatedAt := 10 |}.

Definition registration (email username : string) : CreateUserDto.t :=
  {| CreateUserDto.email := email;
     CreateUserDto.username := username;
     CreateUserDto.firstName := "Carol";
     CreateUserDto.lastName := "Poe";
     CreateUserDto.password := "Passw0rd!";
     CreateUserDto.role := None;
     CreateUserDto.profilePicture := None |}.

Definition change_email (email : string) : UpdateUserDto.t :=
  {| UpdateUserDto.email := Some email;
     UpdateUserDto.username := None;
     UpdateUserDto.firstName := None;
     UpdateUserDto.lastName := None;
     UpdateUserDto.role := None;
     UpdateUserDto.profilePicture := None;
     UpdateUserDto.isActive := None;
     UpdateUserDto.isEmailVerified := None;
     UpdateUserDto.isTwoFactorEnabled := None;
     UpdateUserDto.password := None;
     UpdateUserDto.passwordResetToken := None;
     UpdateUserDto.passwordResetExpires := None |}.

(** A concurrent request that registers [row] in the meantime. *)
Definition registers (row : User) : Store -> Store :=
  fun s => (s ++ [row])%list.

Definition login_as (email password : string) (now : Z) : M AuthResponse :=
  AuthService.login bcrypt jwtService appConfig
                    {| login_email := email; login_password := password |} now.

(** The exception a computation ends with, if any. *)
Definition outcome {A} (r : Result A * Store) : option Exception :=
  match fst r with
  | Ok _ => None
  | Err e => Some e
  end.

(** [n] failed logins in a row, one millisecond apart. *)
Fixpoint failed_logins (n : nat) (email : string) (now : Z) (s : Store)
  : Store :=
  match n with
  | O => s
  | S n' => failed_logins n' email (now + 1)
                          (snd (login_as email "Wrong1!" now s))
  end.
End Fixture.

(** ** Vocabulary of the properties *)

(** The condition [eq(users.email, e)] and [eq(users.id, i)]. *)
Definition by_email (e : string) (r : User) : bool :=
  String.eqb (users.email r) e.

Definition by_id (i : string) (r : User) : bool :=
  String.eqb (users.id r) i.

(** The unique constraint of the column [email]. *)
Definition unique_emails (s : Store) : Prop := NoDup (map users.email s).

(** What the [@Transform] of [CreateUserDto] (inherited by
    [UpdateUserDto]) and the seeder leave in the table: e-mail addresses
    and user names in lower case. *)
Definition lowercase_keys (s : Store) : Prop :=
  forall r, In r s ->
    toLowerCase (users.email r) = users.email r
    /\ toLowerCase (users.username r) = users.username r.

(** An update that writes neither [email] nor [username]. *)
Definition keeps_keys (f : User -> User) : Prop :=
  forall r, users.email (f r) = users.email r
            /\ users.username (f r) = users.username r.

(** The [lockUntil] that a failed attempt writes. *)
Definition failure_lock (attempts now : Z) : option Z :=
  if UsersService.maxLoginAttempts <=? attempts
  then Some (now + UsersService.lockTime)
  else None.

(** The row stored under the e-mail address [e]. *)
Definition account_of (e : string) (s : Store) : option User :=
  first (filter (by_email e) s).

(** Two accounts collide when their e-mail addresses or their user names
    are equal up to case. *)
Definition collides (email username : string) (r : User) : Prop :=
  toLowerCase (users.email r) = toLowerCase email
  \/ toLowerCase (users.username r) = toLowerCase username.

(** The unique constraints refuse the pair [email], [username] in [s]. *)
Definition taken (email username : string) (s : Store) : Prop :=
  exists r, In r s /\ (users.email r = email \/ users.username r = username).

(** An update collides with the row [r] when it names an e-mail address
    or a user name that is the one of [r] up to case. *)
Definition update_collides (dto : UpdateUserDto.t) (r : User) : Prop :=
  (exists e, UpdateUserDto.email dto = Some e /\ e <> ""
             /\ toLowerCase (users.email r) = toLowerCase e)
  \/ (exists u, UpdateUserDto.username dto = Some u /\ u <> ""
                /\ toLowerCase (users.username r) = toLowerCase u).

Definition conflict_on_write : Exception :=
  ConflictException "User with this email or username already exists".

(** The table after a series of login requests, each with its time. *)
Definition after_logins (bcrypt : Bcrypt) (jwtService : JwtService)
           (appConfig : AppConfig) (requests : list (LoginDto * Z))
           (s : Store) : Store :=
  fold_left
    (fun table request =>
       snd (AuthService.login bcrypt jwtService appConfig
                              (fst request) (snd request) table))
    requests s.

(** The pair of tokens that [generateTokens] signs. *)
Definition issued (jwtService : JwtService) (appConfig : AppConfig)
           (id email username : string) (role : UserRole) (now : Z) : Tokens :=
  {| accessToken :=
       signAsync jwtService
                 (AccessClaims {| jwt_sub := id; jwt_email := email;
                                  jwt_username := username; jwt_role := role |})
                 (jwtSecret appConfig) (jwtExpiresIn appConfig) now;
     refreshToken :=
       signAsync jwtService
                 (RefreshClaims {| refresh_sub := id; tokenVersion := 1 |})
                 (jwtRefreshSecret appConfig) (jwtRefreshExpiresIn appConfig)
                 now |}.

Definition invalid_credentials : Exception :=
  UnauthorizedException "Invalid credentials".

Definition account_locked : Exception :=
  UnauthorizedException AuthService.locked_message.

Definition invalid_refresh_token : Exception :=
  UnauthorizedException "Invalid refresh token".

(** The primary key of the table. *)
Definition unique_ids (s : Store) : Prop := NoDup (map users.id s).

(** What [bcrypt] guarantees: a password verifies against its own hash. *)
Definition verifies_own_hash (bcrypt : Bcrypt) : Prop :=
  forall password rounds,
    bcrypt_compare bcrypt password (bcrypt_hash bcrypt password rounds) = true.

(** A response object that carries none of the excluded properties. *)
Definition discloses_nothing (d : UserResponseDto.t) : Prop :=
  UserResponseDto.password d = None
  /\ UserResponseDto.emailVerificationToken d = None
  /\ UserResponseDto.passwordResetToken d = None
  /\ UserResponseDto.passwordResetExpires d = None
  /\ UserResponseDto.loginAttempts d = None
  /\ UserResponseDto.lockUntil d = None
  /\ UserResponseDto.twoFactorSecret d = None.

(** Two versions of a row that differ at most in the profile properties
    and in [updatedAt]. *)
Definition same_but_profile (r r' : User) : Prop :=
  users.id r' = users.id r
  /\ users.email r' = users.email r
  /\ users.username r' = users.username r
  /\ users.password r' = users.password r
  /\ users.role r' = users.role r
  /\ users.isActive r' = users.isActive r
  /\ users.isEmailVerified r' = users.isEmailVerified r
  /\ users.emailVerificationToken r' = users.emailVerificationToken r
  /\ users.passwordResetToken r' = users.passwordResetToken r
  /\ users.passwordResetExpires r' = users.passwordResetExpires r
  /\ users.lastLoginAt r' = users.lastLoginAt r
  /\ users.loginAttempts r' = users.loginAttempts r
  /\ users.lockUntil r' = users.lockUntil r
  /\ users.twoFactorSecret r' = users.twoFactorSecret r
  /\ users.isTwoFactorEnabled r' = users.isTwoFactorEnabled r
  /\ users.createdAt r' = users.createdAt r.

(** A pattern for [LIKE] in which every percent sign, underscore and
    backslash is the second character of a pair that starts with a
    backslash. *)
Fixpoint well_escaped (s : string) : bool :=
  match s with
  | EmptyString => true
  | String c s' =>
      if FilterUtil.is_wildcard c
      then match s' with
           | String d s'' =>
               Ascii.eqb c FilterUtil.backslash
               && FilterUtil.is_wildcard d && well_escaped s''
           | EmptyString => false
           end
      else well_escaped s'
  end.

(** The first and the last character of a string, if any. *)
Definition first_char (s : string) : option ascii :=
  match s with
  | EmptyString => None
  | String c _ => Some c
  end.

Fixpoint last_char (s : string) : option ascii :=
  match s with
  | EmptyString => None
  | String c EmptyString => Some c
  | String _ s' => last_char s'
  end.

(** A row without the columns that the login bookkeeping writes. *)
Definition without_login_state (r : User) : User :=
  {| users.id := users.id r;
     users.email := users.email r;
     users.username := users.username r;
     users.firstName := users.firstName r;
     users.lastName := users.lastName r;
     users.password := users.password r;
     users.role := users.role r;
     users.profilePicture := users.profilePicture r;
     users.isActive := users.isActive r;
     users.isEmailVerified := users.isEmailVerified r;
     users.emailVerificationToken := users.emailVerificationToken r;
     users.passwordResetToken := users.passwordResetToken r;
     users.passwordResetExpires := users.passwordResetExpires r;
     users.lastLoginAt := None;
     users.loginAttempts := None;
     users.lockUntil := None;
     users.twoFactorSecret := users.twoFactorSecret r;
     users.isTwoFactorEnabled := users.isTwoFactorEnabled r;
     users.createdAt := users.createdAt r;
     users.updatedAt := 0 |}.

(** * Properties *)

Unset Implicit Arguments.

(** ** Strings *)

Lemma lower_ascii_idempotent (c : ascii) :
  lower_ascii (lower_ascii c) = lower_ascii c.
Proof.
  destruct c as [[] [] [] [] [] [] [] []]; reflexivity.
Qed.

Lemma toLowerCase_idempotent (s : string) :
  toLowerCase (toLowerCase s) = toLowerCase s.
Proof.
  induction s as [|c s IH]; simpl; [reflexivity|].
  now rewrite lower_ascii_idempotent, IH.
Qed.

Lemma lower_ascii_upper (c : ascii) :
  is_upper c = true -> lower_ascii c <> c.
Proof.
  destruct c as [[] [] [] [] [] [] [] []]; simpl; intros H;
    try discriminate H; intros E; discriminate E.
Qed.

Lemma has_uppercase_not_lower (s : string) :
  has_uppercase s = true -> toLowerCase s <> s.
Proof.
  induction s as [|c s IH]; simpl; [discriminate|].
  intros H E. injection E as Ec Es.
  apply orb_true_iff in H as [H|H].
  - now apply (lower_ascii_upper c).
  - now apply IH.
Qed.

(** ** Queries on a table with unique e-mail addresses *)

Lemma filter_no_match (e : string) (s : Store) :
  (forall r, In r s -> users.email r <> e) ->
  filter (by_email e) s = [].
Proof.
  induction s as [|x s IH]; intros H; simpl; [reflexivity|].
  unfold by_email at 1.
  destruct (String.eqb_spec (users.email x) e) as [E|_].
  - exfalso. apply (H x); [now left | exact E].
  - apply IH. intros r Hr. apply H. now right.
Qed.

Lemma filter_unique_email (s : Store) (a : User) :
  unique_emails s -> In a s ->
  filter (by_email (users.email a)) s = [a].
Proof.
  unfold unique_emails.
  induction s as [|x s IH]; intros Hnd Hin; [contradiction|].
  simpl in Hnd. inversion Hnd as [|? ? Hx Hs]; subst.
  simpl. unfold by_email at 1.
  destruct Hin as [->|Hin].
  - rewrite String.eqb_refl. f_equal.
    apply filter_no_match. intros r Hr E.
    apply Hx. rewrite <- E. now apply in_map.
  - destruct (String.eqb_spec (users.email x) (users.email a)) as [E|_].
    + exfalso. apply Hx. rewrite E. now apply in_map.
    + now apply IH.
Qed.

(** ** Updates that leave the unique columns alone *)

Lemma key_clash_keeps_keys (f : User -> User) (table : list User) (r : User) :
  keeps_keys f -> key_clash table r (f r) = false.
Proof.
  intros Hf. destruct (Hf r) as [He Hu].
  unfold key_clash. now rewrite He, Hu, !String.eqb_refl.
Qed.

Lemma db_update_keeps_keys (p : User -> bool) (f : User -> User) (s : Store) :
  keeps_keys f ->
  db_update p f s
  = (Ok (map f (filter p s)), map (fun r => if p r then f r else r) s).
Proof.
  intros Hf. unfold db_update.
  set (table := map _ s).
  assert (E : existsb (fun r => p r && key_clash table r (f r)) s = false).
  { generalize table. intros t. induction s as [|x s IH]; simpl; [reflexivity|].
    now rewrite key_clash_keeps_keys, andb_false_r, IH. }
  now rewrite E.
Qed.

Lemma set_reset_keeps_keys (now : Z) : keeps_keys (UsersService.set_reset now).
Proof. intros r. split; reflexivity. Qed.

Lemma set_failure_keeps_keys (n : Z) (l : option Z) (now : Z) :
  keeps_keys (UsersService.set_failure n l now).
Proof. intros r. split; reflexivity. Qed.

(** ** What the login attempt tracker computes *)

Lemma updateLoginAttempts_reset_run (e : string) (now : Z) (s : Store) :
  UsersService.updateLoginAttempts e true now s
  = (Ok tt,
     map (fun r => if by_email e r then UsersService.set_reset now r else r) s).
Proof.
  unfold UsersService.updateLoginAttempts, bind.
  fold (by_email e).
  now rewrite (db_update_keeps_keys _ _ _ (set_reset_keeps_keys now)).
Qed.

Lemma updateLoginAttempts_failure_run (e : string) (now : Z) (s : Store) :
  UsersService.updateLoginAttempts e false now s
  = (Ok tt,
     match first (filter (by_email e) s) with
     | Some user =>
         let attempts := num_or (users.loginAttempts user) 0 + 1 in
         map (fun r => if by_email e r
                       then UsersService.set_failure
                              attempts (failure_lock attempts now) now r
                       else r) s
     | None => s
     end).
Proof.
  unfold UsersService.updateLoginAttempts, bind, db_select.
  fold (by_email e).
  destruct (first (filter (by_email e) s)) as [user|]; [|reflexivity].
  cbv zeta. fold (failure_lock (num_or (users.loginAttempts user) 0 + 1) now).
  now rewrite (db_update_keeps_keys _ _ _ (set_failure_keeps_keys _ _ now)).
Qed.

Lemma isAccountLocked_run (e : string) (now : Z) (s : Store) :
  UsersService.isAccountLocked e now s
  = match first (filter (by_email e) s) with
    | None => (Ok false, s)
    | Some user =>
        match users.lockUntil user with
        | None => (Ok false, s)
        | Some lockUntil =>
            if now <? lockUntil then (Ok true, s)
            else (Ok false,
                  map (fun r => if by_email e r
                                then UsersService.set_reset now r else r) s)
        end
    end.
Proof.
  unfold UsersService.isAccountLocked, bind, db_select.
  fold (by_email e).
  destruct (first (filter (by_email e) s)) as [user|]; [|reflexivity].
  destruct (users.lockUntil user) as [l|]; [|reflexivity].
  destruct (now <? l); [reflexivity|].
  now rewrite updateLoginAttempts_reset_run.
Qed.

Lemma map_unique_email (f : User -> User) (s : Store) (a : User) :
  unique_emails s -> In a s ->
  In (f a) (map (fun r => if by_email (users.email a) r then f r else r) s).
Proof.
  intros _ Hin.
  apply in_map_iff. exists a. split; [|exact Hin].
  unfold by_email. now rewrite String.eqb_refl.
Qed.

Lemma map_keeps_emails (e : string) (f : User -> User) (s : Store) :
  keeps_keys f ->
  map users.email (map (fun r => if by_email e r then f r else r) s)
  = map users.email s.
Proof.
  intros Hf. rewrite map_map. apply map_ext. intros r.
  destruct (by_email e r); [apply Hf | reflexivity].
Qed.

Lemma filter_after_update (f : User -> User) (s : Store) (a : User) :
  keeps_keys f -> unique_emails s -> In a s ->
  filter (by_email (users.email a))
         (map (fun r => if by_email (users.email a) r then f r else r) s)
  = [f a].
Proof.
  intros Hf Hu Hin.
  assert (E : users.email (f a) = users.email a) by apply Hf.
  rewrite <- E at 1.
  apply filter_unique_email.
  - unfold unique_emails. now rewrite map_keeps_emails.
  - now apply map_unique_email.
Qed.

Lemma updateLoginAttempts_ok (e : string) (reset : bool) (now : Z) (s : Store) :
  fst (UsersService.updateLoginAttempts e reset now s) = Ok tt.
Proof.
  destruct reset.
  - now rewrite updateLoginAttempts_reset_run.
  - now rewrite updateLoginAttempts_failure_run.
Qed.

(** A failed attempt recorded under the stored address adds one to the
    counter (an absent counter counts as zero), locks the account for
    [lockTime] when the new value is at least [maxLoginAttempts], and
    leaves [lastLoginAt] alone. *)
Lemma updateLoginAttempts_failure_counts
      (s : Store) (a : User) (now : Z) :
  unique_emails s -> In a s ->
  let attempts := num_or (users.loginAttempts a) 0 + 1 in
  let s' := snd (UsersService.updateLoginAttempts (users.email a) false now s) in
  account_of (users.email a) s'
  = Some (UsersService.set_failure attempts (failure_lock attempts now) now a).
Proof.
  intros Hu Hin attempts s'. subst s'.
  rewrite updateLoginAttempts_failure_run.
  rewrite (filter_unique_email s a Hu Hin). simpl.
  unfold account_of.
  now rewrite (filter_after_update _ s a (set_failure_keeps_keys _ _ now) Hu Hin).
Qed.

Lemma updateLoginAttempts_no_row (s : Store) (e : string) (now : Z) :
  (forall r, In r s -> users.email r <> e) ->
  UsersService.updateLoginAttempts e false now s = (Ok tt, s).
Proof.
  intros H.
  rewrite updateLoginAttempts_failure_run.
  now rewrite (filter_no_match e s H).
Qed.

(** C7: when no account is stored under the e-mail address, recording a
    failed login attempt returns normally and leaves the whole table as it
    was. *)
Theorem updateLoginAttempts_unknown_email_noop :
  forall (s : Store) (e : string) (now : Z),
    (forall r, In r s -> users.email r <> e) ->
    UsersService.updateLoginAttempts e false now s = (Ok tt, s).
Proof.
  intros s e now H.
  exact (updateLoginAttempts_no_row s e now H).
Qed.

Lemma updateLoginAttempts_unknown_email_noop_witness :
  UsersService.updateLoginAttempts
    "nobody@x.com" false 1000
    [Fixture.account (Some 4) None; Fixture.other_account]
  = (Ok tt, [Fixture.account (Some 4) None; Fixture.other_account]).
Proof.
  apply updateLoginAttempts_unknown_email_noop.
  intros r [<-|[<-|[]]]; simpl; discriminate.
Defined.

(** C10: when the lock of an account has run out, [isAccountLocked]
    answers [false] and rewrites the account through the success path of
    [updateLoginAttempts]: the counter is zero, the lock is cleared, and
    [lastLoginAt] is the current time although nobody logged in. *)
Theorem isAccountLocked_expired_lock_stamps_lastLoginAt :
  forall (s : Store) (a : User) (t now : Z),
    unique_emails s -> In a s ->
    users.lockUntil a = Some t -> t <= now ->
    exists a',
      fst (UsersService.isAccountLocked (users.email a) now s) = Ok false
      /\ account_of (users.email a)
                    (snd (UsersService.isAccountLocked (users.email a) now s))
         = Some a'
      /\ users.id a' = users.id a
      /\ users.loginAttempts a' = Some 0
      /\ users.lockUntil a' = None
      /\ users.lastLoginAt a' = Some now.
Proof.
  intros s a t now Hu Hin Hl Ht.
  exists (UsersService.set_reset now a).
  rewrite isAccountLocked_run.
  rewrite (filter_unique_email s a Hu Hin). simpl. rewrite Hl.
  destruct (Z.ltb_spec now t) as [Hlt|_]; [lia|].
  simpl. unfold account_of.
  rewrite (filter_after_update _ s a (set_reset_keeps_keys now) Hu Hin).
  repeat split.
Qed.

Lemma isAccountLocked_expired_lock_stamps_lastLoginAt_witness :
  exists a',
    fst (UsersService.isAccountLocked
           "a@x.com" 9000 [Fixture.account (Some 5) (Some 8000)]) = Ok false
    /\ account_of "a@x.com"
         (snd (UsersService.isAccountLocked
                 "a@x.com" 9000 [Fixture.account (Some 5) (Some 8000)]))
       = Some a'
    /\ users.id a' = "u1"
    /\ users.loginAttempts a' = Some 0
    /\ users.lockUntil a' = None
    /\ users.lastLoginAt a' = Some 9000.
Proof.
  apply (isAccountLocked_expired_lock_stamps_lastLoginAt
           [Fixture.account (Some 5) (Some 8000)]
           (Fixture.account (Some 5) (Some 8000)) 8000 9000).
  - repeat constructor; simpl; tauto.
  - simpl; tauto.
  - reflexivity.
  - lia.
Defined.

(** ** The login state machine *)

Ltac run_attempts e b now s :=
  let H := fresh "Hok" in
  let r := fresh "r" in
  let s' := fresh "s" in
  pose proof (updateLoginAttempts_ok e b now s) as H;
  destruct (UsersService.updateLoginAttempts e b now s) as [r s'];
  cbn [fst snd] in *; subst r.

Section Login.

Variable bcrypt : Bcrypt.
Variable jwtService : JwtService.
Variable appConfig : AppConfig.

Lemma generateTokens_run (id email username : string) (role : UserRole)
      (now : Z) (s : Store) :
  AuthService.generateTokens jwtService appConfig id email username role now s
  = (Ok (issued jwtService appConfig id email username role now), s).
Proof. reflexivity. Qed.

(** [login] as one case analysis over the table. *)
Lemma login_run (dto : LoginDto) (now : Z) (s : Store) :
  AuthService.login bcrypt jwtService appConfig dto now s
  = let e := login_email dto in
    match UsersService.isAccountLocked e now s with
    | (Err x, s1) => (Err x, s1)
    | (Ok true, s1) => (Err account_locked, s1)
    | (Ok false, s1) =>
        match account_of (toLowerCase e) s1 with
        | None =>
            (Err invalid_credentials,
             snd (UsersService.updateLoginAttempts e false now s1))
        | Some user =>
            if negb (bcrypt_compare bcrypt (login_password dto)
                                    (users.password user))
            then (Err invalid_credentials,
                  snd (UsersService.updateLoginAttempts e false now s1))
            else if negb (users.isActive user)
            then (Err (UnauthorizedException "Account is deactivated"), s1)
            else
              let s2 := snd (UsersService.updateLoginAttempts e true now s1) in
              match first (filter (by_id (users.id user)) s2) with
              | None => (Err (NotFoundException "User not found"), s2)
              | Some u =>
                  let tokens :=
                    issued jwtService appConfig
                           (users.id user) (users.email user)
                           (users.username user) (users.role user) now in
                  (Ok {| auth_user := UsersService.transformToResponseDto u;
                         auth_accessToken := accessToken tokens;
                         auth_refreshToken := Some (refreshToken tokens) |},
                   s2)
              end
        end
    end.
Proof.
  unfold AuthService.login, AuthService.findUserForAuthentication,
    AuthService.generateTokens, AuthService.verifyPassword,
    UsersService.findOne, UsersService.findUserById,
    bind, db_select, ret, throw, account_of, issued, by_email, by_id,
    invalid_credentials, account_locked.
  cbv beta zeta.
  destruct (UsersService.isAccountLocked (login_email dto) now s)
    as [[[|]|x] s1]; try reflexivity.
  cbv beta iota.
  destruct (first (filter _ s1)) as [user|]; cbv beta iota.
  - destruct (bcrypt_compare bcrypt (login_password dto) (users.password user));
      cbn [negb]; cbv beta iota.
    + destruct (users.isActive user); cbn [negb]; cbv beta iota;
        [|reflexivity].
      run_attempts (login_email dto) true now s1.
      destruct (first (filter _ _)); reflexivity.
    + run_attempts (login_email dto) false now s1. reflexivity.
  - run_attempts (login_email dto) false now s1. reflexivity.
Qed.

Lemma findUserForAuthentication_run (e : string) (s : Store) :
  AuthService.findUserForAuthentication e s
  = (Ok (account_of (toLowerCase e) s), s).
Proof. reflexivity. Qed.

(** While the lock of an account lies in the future, a login under the
    stored address is refused, whatever the password, and writes nothing. *)
Lemma login_locked_with_stored_email
      (s : Store) (a : User) (pw : string) (t now : Z) :
  unique_emails s -> In a s ->
  users.lockUntil a = Some t -> now < t ->
  AuthService.login bcrypt jwtService appConfig
                    {| login_email := users.email a; login_password := pw |}
                    now s
  = (Err account_locked, s).
Proof.
  intros Hu Hin Hl Ht.
  rewrite login_run. cbn [login_email]. cbv zeta.
  rewrite isAccountLocked_run, (filter_unique_email s a Hu Hin).
  cbn [first]. rewrite Hl.
  destruct (Z.ltb_spec now t) as [_|Hge]; [reflexivity | lia].
Qed.

Lemma no_row_with_uppercase (s : Store) (e : string) :
  lowercase_keys s -> has_uppercase e = true ->
  forall r, In r s -> users.email r <> e.
Proof.
  intros Hl He r Hr E.
  destruct (Hl r Hr) as [Hlow _].
  apply (has_uppercase_not_lower e He).
  now rewrite <- E.
Qed.

(** A login whose address matches no row as it is written, while its
    lower-case form is the address of an account, and whose password is
    wrong: invalid credentials, and nothing is written. *)
Lemma login_unmatched_address_wrong_password
      (s : Store) (a : User) (e pw : string) (now : Z) :
  unique_emails s -> In a s ->
  toLowerCase e = users.email a ->
  (forall r, In r s -> users.email r <> e) ->
  bcrypt_compare bcrypt pw (users.password a) = false ->
  AuthService.login bcrypt jwtService appConfig
                    {| login_email := e; login_password := pw |} now s
  = (Err invalid_credentials, s).
Proof.
  intros Hu Hin He Hno Hpw.
  rewrite login_run. cbn [login_email login_password]. cbv zeta.
  rewrite isAccountLocked_run, (filter_no_match e s Hno). cbn [first].
  unfold account_of. rewrite He, (filter_unique_email s a Hu Hin).
  cbn [first]. rewrite Hpw. cbn [negb].
  now rewrite (updateLoginAttempts_no_row s e now Hno).
Qed.

(** C9: the lock check and the failed-attempt record compare the address
    as it was typed, the credential fetch compares its lower-case form.
    For an account stored in lower case, a login that spells the address
    with an upper-case letter and gives a wrong password fails with
    invalid credentials, finds no row to check or to count on, and leaves
    the table, hence the counter and the lock of the account, as they
    were. *)
Theorem login_uppercase_address_never_counts :
  forall (s : Store) (a : User) (e pw : string) (now : Z),
    unique_emails s -> lowercase_keys s -> In a s ->
    toLowerCase e = users.email a -> has_uppercase e = true ->
    bcrypt_compare bcrypt pw (users.password a) = false ->
    let run := AuthService.login
                 bcrypt jwtService appConfig
                 {| login_email := e; login_password := pw |} now s in
    fst run = Err invalid_credentials
    /\ snd run = s
    /\ account_of e s = None
    /\ account_of (users.email a) (snd run) = Some a.
Proof.
  intros s a e pw now Hu Hl Hin He Hup Hpw run. subst run.
  pose proof (no_row_with_uppercase s e Hl Hup) as Hno.
  rewrite (login_unmatched_address_wrong_password s a e pw now Hu Hin He Hno Hpw).
  cbn [fst snd]. unfold account_of.
  rewrite (filter_no_match e s Hno), (filter_unique_email s a Hu Hin).
  repeat split.
Qed.

(** C5: a login that fails because no account has the address and a
    login that fails because the password does not match end with the
    same exception, [UnauthorizedException] with the message
    "Invalid credentials". *)
Theorem login_not_found_and_mismatch_same_error :
  forall (s1 t1 : Store) (dto1 : LoginDto) (now1 : Z)
         (s2 t2 : Store) (dto2 : LoginDto) (now2 : Z) (user : User),
    UsersService.isAccountLocked (login_email dto1) now1 s1 = (Ok false, t1) ->
    AuthService.findUserForAuthentication (login_email dto1) t1
    = (Ok None, t1) ->
    UsersService.isAccountLocked (login_email dto2) now2 s2 = (Ok false, t2) ->
    AuthService.findUserForAuthentication (login_email dto2) t2
    = (Ok (Some user), t2) ->
    AuthService.verifyPassword bcrypt (login_password dto2)
                               (users.password user) = false ->
    fst (AuthService.login bcrypt jwtService appConfig dto1 now1 s1)
    = Err (UnauthorizedException "Invalid credentials")
    /\ fst (AuthService.login bcrypt jwtService appConfig dto2 now2 s2)
       = fst (AuthService.login bcrypt jwtService appConfig dto1 now1 s1).
Proof.
  intros s1 t1 dto1 now1 s2 t2 dto2 now2 user L1 F1 L2 F2 V2.
  rewrite findUserForAuthentication_run in F1, F2.
  injection F1 as F1. injection F2 as F2.
  unfold AuthService.verifyPassword in V2.
  rewrite !login_run. cbv zeta.
  rewrite L1, L2, F1, F2, V2. split; reflexivity.
Qed.

End Login.

Lemma login_uppercase_address_never_counts_witness :
  let s := [Fixture.account (Some 2) None; Fixture.other_account] in
  let run := Fixture.login_as "A@x.com" "Wrong1!" 1000 s in
  fst run = Err invalid_credentials
  /\ snd run = s
  /\ account_of "A@x.com" s = None
  /\ account_of "a@x.com" (snd run) = Some (Fixture.account (Some 2) None).
Proof.
  apply (login_uppercase_address_never_counts
           Fixture.bcrypt Fixture.jwtService Fixture.appConfig
           [Fixture.account (Some 2) None; Fixture.other_account]
           (Fixture.account (Some 2) None) "A@x.com" "Wrong1!" 1000).
  - repeat constructor; simpl; intuition discriminate.
  - intros r [<-|[<-|[]]]; split; reflexivity.
  - simpl; tauto.
  - reflexivity.
  - reflexivity.
  - reflexivity.
Defined.

Lemma login_not_found_and_mismatch_same_error_witness :
  let s := [Fixture.account (Some 0) None] in
  fst (Fixture.login_as "nobody@x.com" "Right1!" 1000 s)
  = Err (UnauthorizedException "Invalid credentials")
  /\ fst (Fixture.login_as "a@x.com" "Wrong1!" 1000 s)
     = fst (Fixture.login_as "nobody@x.com" "Right1!" 1000 s).
Proof.
  apply (login_not_found_and_mismatch_same_error
           Fixture.bcrypt Fixture.jwtService Fixture.appConfig
           [Fixture.account (Some 0) None] [Fixture.account (Some 0) None]
           {| login_email := "nobody@x.com"; login_password := "Right1!" |} 1000
           [Fixture.account (Some 0) None] [Fixture.account (Some 0) None]
           {| login_email := "a@x.com"; login_password := "Wrong1!" |} 1000
           (Fixture.account (Some 0) None));
    reflexivity.
Defined.

(** ** Lockout and the spelling of the address *)

(** C1 (evaluation of the code where it departs from the claim): five
    failed logins under "a@x.com" lock the account until two hours after
    the fifth; a sixth attempt under "a@x.com" with the right password is
    refused as locked, and the same attempt under "A@x.com" is accepted
    while the lock is still in the future. *)
Theorem locked_account_opens_to_uppercase_address :
  let s := Fixture.failed_logins 5 "a@x.com" 1000
                                 [Fixture.account (Some 0) None] in
  account_of "a@x.com" s
  = Some (UsersService.set_failure 5 (Some (1004 + UsersService.lockTime))
                                   1004 (Fixture.account (Some 0) None))
  /\ 2000 < 1004 + UsersService.lockTime
  /\ Fixture.outcome (Fixture.login_as "a@x.com" "Right1!" 2000 s)
     = Some account_locked
  /\ Fixture.outcome (Fixture.login_as "A@x.com" "Right1!" 2000 s) = None.
Proof.
  vm_compute. repeat split.
Qed.

(** C3 (evaluation of the code where it departs from the claim): a login
    under "A@x.com" with the right password succeeds for the account
    stored as "a@x.com", and leaves its counter at 3, its lock set and
    its [lastLoginAt] empty. *)
Theorem successful_login_with_uppercase_address_resets_nothing :
  let s := [Fixture.account (Some 3) (Some 500)] in
  let run := Fixture.login_as "A@x.com" "Right1!" 2000 s in
  Fixture.outcome run = None
  /\ snd run = s
  /\ option_map users.loginAttempts (account_of "a@x.com" (snd run))
     = Some (Some 3)
  /\ option_map users.lockUntil (account_of "a@x.com" (snd run))
     = Some (Some 500)
  /\ option_map users.lastLoginAt (account_of "a@x.com" (snd run))
     = Some None.
Proof.
  vm_compute. repeat split.
Qed.

(** ** Password reset *)

(** No object built by [transformToResponseDto] carries a reset token, so
    the search of [resetPassword] never finds one. *)
Lemma find_reset_token_in_responses (token : string) (now : Z) (l : list User) :
  find (AuthService.matches_reset_token token now)
       (map UsersService.transformToResponseDto l) = None.
Proof.
  induction l as [|u l IH]; [reflexivity|].
  cbn [map find]. exact IH.
Qed.

Lemma findAll_data (q : QueryUserDto.t) (s : Store) :
  exists l, exists page,
    UsersService.findAll q s
    = (Ok page, s)
    /\ PaginatedUserResponseDto.data page
       = map UsersService.transformToResponseDto l.
Proof.
  unfold UsersService.findAll.
  destruct (PaginationUtil.validateAndNormalizePagination q)
    as [[page limit] offset].
  unfold bind, db_select, ret.
  eexists. eexists. split; reflexivity.
Qed.

(** [resetPassword] fails on every token, every table and at every time. *)
Lemma resetPassword_always_fails
      (bcrypt : Bcrypt) (appConfig : AppConfig)
      (token newPassword : string) (now : Z) (s : Store) :
  AuthService.resetPassword bcrypt appConfig token newPassword now s
  = (Err (BadRequestException "Invalid or expired reset token"), s).
Proof.
  unfold AuthService.resetPassword. unfold bind at 1.
  destruct (findAll_data
              {| QueryUserDto.page := None; QueryUserDto.limit := Some 1000 |} s)
    as [l [page [-> Hd]]].
  now rewrite Hd, find_reset_token_in_responses.
Qed.

(** The page that [resetPassword] asks for holds at most 100 accounts,
    although it asks for 1000. *)
Lemma findAll_limit_is_capped :
  PaginationUtil.validateAndNormalizePagination
    {| QueryUserDto.page := None; QueryUserDto.limit := Some 1000 |}
  = (1, 100, 0).
Proof. reflexivity. Qed.

(** C2 (evaluation of the code where it departs from the claim): the
    table holds an account whose reset token is "tok" and expires at 5000;
    at time 100, [resetPassword "tok"] fails with "Invalid or expired
    reset token" and writes nothing, whatever the hasher. *)
Theorem resetPassword_rejects_live_token :
  forall (bcrypt : Bcrypt) (appConfig : AppConfig),
    let s := [Fixture.account (Some 0) None; Fixture.other_account] in
    (In Fixture.other_account s
     /\ users.passwordResetToken Fixture.other_account = Some "tok"
     /\ users.passwordResetExpires Fixture.other_account = Some 5000
     /\ 100 < 5000)
    /\ AuthService.resetPassword bcrypt appConfig "tok" "NewPass1!" 100 s
       = (Err (BadRequestException "Invalid or expired reset token"), s).
Proof.
  intros bcrypt appConfig s. split.
  - repeat split; try lia. simpl; tauto.
  - apply resetPassword_always_fails.
Qed.

Lemma first_filter_some {A} (p : A -> bool) (l : list A) (x : A) :
  first (filter p l) = Some x -> In x l /\ p x = true.
Proof.
  induction l as [|y l IH]; simpl; [discriminate|].
  destruct (p y) eqn:E.
  - simpl. intros [= ->]. split; [now left | exact E].
  - intros H. destruct (IH H) as [Hin Hp]. split; [now right | exact Hp].
Qed.

Lemma first_filter_exists {A} (p : A -> bool) (l : list A) (x : A) :
  In x l -> p x = true -> exists y, first (filter p l) = Some y.
Proof.
  induction l as [|z l IH]; simpl; [contradiction|].
  intros Hin Hp. destruct (p z) eqn:E.
  - now exists z.
  - destruct Hin as [->|Hin]; [congruence | now apply IH].
Qed.

Lemma apply_update_keeps_keys (dto : UpdateUserDto.t) (now : Z) :
  UpdateUserDto.email dto = None -> UpdateUserDto.username dto = None ->
  keeps_keys (UsersService.apply_update dto now).
Proof.
  intros He Hu r. unfold UsersService.apply_update. cbn.
  now rewrite He, Hu.
Qed.

(** An update that names neither the e-mail address nor the user name of
    an existing account goes through. *)
Lemma update_without_keys
      (id : string) (now : Z) (dto : UpdateUserDto.t) (s : Store) (u : User) :
  first (filter (by_id id) s) = Some u ->
  UpdateUserDto.email dto = None -> UpdateUserDto.username dto = None ->
  exists r,
    UsersService.update AuthService.alone id now dto s
    = (Ok r,
       map (fun r => if by_id id r
                     then UsersService.apply_update dto now r else r) s).
Proof.
  intros Hfound He Hu.
  unfold UsersService.update, UsersService.findUserById, bind, db_select,
    interleave, try_catch, AuthService.alone, ret.
  fold (by_id id). rewrite Hfound, He, Hu. cbn [truthy orb].
  rewrite (db_update_keeps_keys _ _ _ (apply_update_keeps_keys dto now He Hu)).
  eexists. reflexivity.
Qed.

(** [forgotPassword] answers with the same message on every table. *)
Lemma forgotPassword_response
      (email resetToken : string) (now : Z) (s : Store) :
  fst (AuthService.forgotPassword email resetToken now s)
  = Ok {| message := AuthService.reset_sent |}.
Proof.
  unfold AuthService.forgotPassword, UsersService.findByEmail.
  unfold bind at 1. unfold bind at 1. unfold db_select, ret at 1.
  fold (by_email (toLowerCase email)).
  destruct (first (filter (by_email (toLowerCase email)) s)) as [u|] eqn:E;
    cbn [option_map]; [|reflexivity].
  destruct (first_filter_some _ _ _ E) as [Hin _].
  assert (Hid : by_id (users.id u) u = true)
    by (unfold by_id; apply String.eqb_refl).
  destruct (first_filter_exists (by_id (users.id u)) s u Hin Hid) as [v Hv].
  unfold bind.
  match goal with
  | |- context [UsersService.update AuthService.alone ?i ?n ?d s] =>
      destruct (update_without_keys i n d s v Hv eq_refl eq_refl) as [r ->]
  end.
  reflexivity.
Qed.

(** C4: for an e-mail address that is registered in one table and not in
    another, [forgotPassword] returns the same response in both runs: the
    one message "If the email exists, a password reset link has been
    sent". *)
Theorem forgotPassword_same_response :
  forall (email : string) (s1 s2 : Store) (u : UserResponseDto.t)
         (token1 token2 : string) (now1 now2 : Z),
    fst (UsersService.findByEmail email s1) = Ok (Some u) ->
    fst (UsersService.findByEmail email s2) = Ok None ->
    fst (AuthService.forgotPassword email token1 now1 s1)
    = fst (AuthService.forgotPassword email token2 now2 s2)
    /\ fst (AuthService.forgotPassword email token1 now1 s1)
       = Ok {| message :=
                 "If the email exists, a password reset link has been sent" |}.
Proof.
  intros email s1 s2 u token1 token2 now1 now2 _ _.
  rewrite !forgotPassword_response. split; reflexivity.
Qed.

Lemma forgotPassword_same_response_witness :
  fst (AuthService.forgotPassword
         "a@x.com" "k3j9" 1000 [Fixture.account (Some 0) None])
  = fst (AuthService.forgotPassword "a@x.com" "p0q2" 2000 [Fixture.other_account])
  /\ fst (AuthService.forgotPassword
            "a@x.com" "k3j9" 1000 [Fixture.account (Some 0) None])
     = Ok {| message :=
               "If the email exists, a password reset link has been sent" |}.
Proof.
  apply (forgotPassword_same_response
           "a@x.com" [Fixture.account (Some 0) None] [Fixture.other_account]
           (UsersService.transformToResponseDto (Fixture.account (Some 0) None)));
    reflexivity.
Defined.

(** ** Token refresh *)

(** C6: [refreshTokens] verifies the token with the refresh secret, loads
    the account named by its subject, and signs a new access token and a
    new refresh token when the account exists and is active; a token that
    does not verify (for whatever reason), a missing account and an
    inactive account all end with the one exception
    [UnauthorizedException "Invalid refresh token"].  The table is not
    written. *)
Theorem refreshTokens_single_failure :
  forall (jwtService : JwtService) (appConfig : AppConfig)
         (token : string) (now : Z) (s : Store),
    let run := AuthService.refreshTokens jwtService appConfig token now s in
    snd run = s
    /\ fst run
       = match verify jwtService token (jwtRefreshSecret appConfig) now with
         | inl _ => Err invalid_refresh_token
         | inr sub =>
             match first (filter (by_id sub) s) with
             | None => Err invalid_refresh_token
             | Some user =>
                 if users.isActive user
                 then Ok (issued jwtService appConfig
                                 (users.id user) (users.email user)
                                 (users.username user) (users.role user) now)
                 else Err invalid_refresh_token
             end
         end
    /\ ((exists tokens, fst run = Ok tokens)
        \/ fst run = Err (UnauthorizedException "Invalid refresh token")).
Proof.
  intros jwtService appConfig token now s run. subst run.
  unfold AuthService.refreshTokens, try_catch.
  destruct (verify jwtService token (jwtRefreshSecret appConfig) now)
    as [name|sub].
  - cbn. repeat split. now right.
  - unfold UsersService.findOne, UsersService.findUserById, bind, db_select.
    fold (by_id sub).
    destruct (first (filter (by_id sub) s)) as [user|].
    + cbn. destruct (users.isActive user); cbn.
      * repeat split. left. eexists. reflexivity.
      * repeat split. now right.
    + cbn. repeat split. now right.
Qed.

(** ** Uniqueness of e-mail addresses and user names *)

Lemma truthy_nonempty (x : string) : x <> "" -> truthy (Some x) = true.
Proof. destruct x; [congruence | reflexivity]. Qed.

Lemma checkUserExists_state (email username excludeId : option string)
      (s : Store) :
  snd (UsersService.checkUserExists email username excludeId s) = s.
Proof.
  unfold UsersService.checkUserExists.
  destruct (negb (truthy email) && negb (truthy username)); [reflexivity|].
  unfold bind, db_select.
  match goal with |- context [first ?l] => destruct (first l) as [x|] end;
    [|reflexivity].
  destruct (eq_opt_string (users.email x) (opt_lower email)); [reflexivity|].
  destruct (eq_opt_string (users.username x) (opt_lower username)); reflexivity.
Qed.

(** The pre-check throws [ConflictException] as soon as some row satisfies
    its [where] clause. *)
Lemma checkUserExists_conflict (email username excludeId : option string)
      (s : Store) (r : User) :
  In r s ->
  (truthy email && eq_opt_string (users.email r) (opt_lower email))
  || (truthy username && eq_opt_string (users.username r) (opt_lower username))
  = true ->
  (truthy excludeId = true -> eq_opt_string (users.id r) excludeId = false) ->
  exists msg,
    UsersService.checkUserExists email username excludeId s
    = (Err (ConflictException msg), s).
Proof.
  intros Hin Hc Hx.
  unfold UsersService.checkUserExists.
  assert (Ht : negb (truthy email) && negb (truthy username) = false).
  { destruct (truthy email), (truthy username); try reflexivity.
    discriminate Hc. }
  rewrite Ht. unfold bind, db_select.
  match goal with |- context [filter ?p s] => set (whereClause := p) end.
  assert (Hw : whereClause r = true).
  { subst whereClause. cbv beta.
    destruct (truthy excludeId); [|exact Hc].
    now rewrite Hc, (Hx eq_refl). }
  destruct (first_filter_exists whereClause s r Hin Hw) as [y Hy].
  rewrite Hy.
  destruct (first_filter_some _ _ _ Hy) as [_ Hwy].
  subst whereClause. cbv beta in Hwy.
  assert (Hcy : (truthy email
                 && eq_opt_string (users.email y) (opt_lower email))
                || (truthy username
                    && eq_opt_string (users.username y) (opt_lower username))
                = true).
  { destruct (truthy excludeId); [|exact Hwy].
    now apply andb_true_iff in Hwy as [Hwy _]. }
  destruct (eq_opt_string (users.email y) (opt_lower email)).
  - eexists. reflexivity.
  - rewrite andb_false_r in Hcy. cbn [orb] in Hcy.
    apply andb_true_iff in Hcy as [_ Hcy]. rewrite Hcy.
    eexists. reflexivity.
Qed.

Lemma on_unique_violation_conflict {A} (s : Store) :
  @UsersService.on_unique_violation A (DatabaseError unique_violation) s
  = (Err (ConflictException "User with this email or username already exists"),
     s).
Proof. reflexivity. Qed.

(** The insert statement is refused when the address or the name of the
    new row is already in the table. *)
Lemma db_insert_taken (row : User) (s : Store) :
  taken (users.email row) (users.username row) s ->
  db_insert row s = (Err (DatabaseError unique_violation), s).
Proof.
  intros [r [Hin Hk]]. unfold db_insert.
  assert (E : existsb
                (fun r => String.eqb (users.id r) (users.id row)
                          || String.eqb (users.email r) (users.email row)
                          || String.eqb (users.username r) (users.username row))
                s = true).
  { apply existsb_exists. exists r. split; [exact Hin|].
    destruct Hk as [Hk|Hk]; rewrite Hk, String.eqb_refl;
      now rewrite ?orb_true_r. }
  now rewrite E.
Qed.

Lemma lowercase_collision (stored typed : string) :
  toLowerCase stored = stored ->
  toLowerCase stored = toLowerCase typed ->
  eq_opt_string stored (opt_lower (Some typed)) = true.
Proof.
  intros Hl Hc. cbn. apply String.eqb_eq. congruence.
Qed.

Section Uniqueness.

Variable bcrypt : Bcrypt.

Lemma create_precheck_conflict
      (s : Store) (other : Store -> Store) (newId : string) (now : Z)
      (dto : CreateUserDto.t) (r : User) :
  lowercase_keys s ->
  CreateUserDto.email dto <> "" -> CreateUserDto.username dto <> "" ->
  In r s ->
  collides (CreateUserDto.email dto) (CreateUserDto.username dto) r ->
  exists msg,
    UsersService.create bcrypt other newId now dto s
    = (Err (ConflictException msg), s).
Proof.
  intros Hl He Hu Hin Hc.
  destruct (Hl r Hin) as [Hle Hlu].
  destruct (checkUserExists_conflict
              (Some (CreateUserDto.email dto))
              (Some (CreateUserDto.username dto)) None s r Hin) as [msg Hmsg].
  - rewrite (truthy_nonempty _ He), (truthy_nonempty _ Hu). cbn [andb].
    apply orb_true_iff.
    destruct Hc as [Hc|Hc]; [left|right]; apply lowercase_collision; congruence.
  - discriminate.
  - exists msg. unfold UsersService.create. unfold bind at 1.
    now rewrite Hmsg.
Qed.

Lemma create_race_conflict
      (s : Store) (other : Store -> Store) (newId : string) (now : Z)
      (dto : CreateUserDto.t) :
  fst (UsersService.checkUserExists
         (Some (CreateUserDto.email dto))
         (Some (CreateUserDto.username dto)) None s) = Ok tt ->
  fst (db_insert
         (UsersService.new_row
            newId now dto
            (UsersService.hashPassword bcrypt (CreateUserDto.password dto)))
         (other s))
  = Err (DatabaseError unique_violation) ->
  fst (UsersService.create bcrypt other newId now dto s) = Err conflict_on_write.
Proof.
  intros Hc Hi.
  unfold UsersService.create. unfold bind at 1.
  pose proof (checkUserExists_state
                (Some (CreateUserDto.email dto))
                (Some (CreateUserDto.username dto)) None s) as Hs.
  destruct (UsersService.checkUserExists _ _ _ s) as [rc sc].
  cbn [fst snd] in Hc, Hs. subst rc sc.
  unfold bind at 1, interleave, try_catch. unfold bind at 1.
  destruct (db_insert _ (other s)) as [ri si].
  cbn [fst] in Hi. subst ri. reflexivity.
Qed.

Lemma update_precheck_conflict
      (s : Store) (other : Store -> Store) (id : string) (now : Z)
      (dto : UpdateUserDto.t) (a r : User) :
  lowercase_keys s ->
  fst (UsersService.findUserById id s) = Ok a ->
  In r s -> users.id r <> id -> update_collides dto r ->
  exists msg,
    UsersService.update other id now dto s = (Err (ConflictException msg), s).
Proof.
  intros Hl Hf Hin Hid Hc.
  destruct (Hl r Hin) as [Hle Hlu].
  assert (Hcond :
            (truthy (UpdateUserDto.email dto)
             && eq_opt_string (users.email r)
                              (opt_lower (UpdateUserDto.email dto)))
            || (truthy (UpdateUserDto.username dto)
                && eq_opt_string (users.username r)
                                 (opt_lower (UpdateUserDto.username dto)))
            = true).
  { apply orb_true_iff.
    destruct Hc as [[e [-> [He Hc]]]|[u [-> [Hu Hc]]]]; [left|right];
      rewrite truthy_nonempty by assumption; cbn [andb];
      apply lowercase_collision; congruence. }
  assert (Ht : truthy (UpdateUserDto.email dto)
               || truthy (UpdateUserDto.username dto) = true).
  { destruct (truthy (UpdateUserDto.email dto)),
      (truthy (UpdateUserDto.username dto)); try reflexivity.
    discriminate Hcond. }
  destruct (checkUserExists_conflict
              (UpdateUserDto.email dto) (UpdateUserDto.username dto)
              (Some id) s r Hin Hcond) as [msg Hmsg].
  - intros _. cbn. now apply String.eqb_neq.
  - exists msg. unfold UsersService.update. unfold bind at 1.
    unfold UsersService.findUserById, bind, db_select in Hf |- *.
    destruct (first (filter _ s)); [|discriminate Hf].
    cbn [ret]. rewrite Ht, Hmsg. reflexivity.
Qed.

Lemma update_race_conflict
      (s : Store) (other : Store -> Store) (id : string) (now : Z)
      (dto : UpdateUserDto.t) (a : User) :
  fst (UsersService.findUserById id s) = Ok a ->
  fst (UsersService.checkUserExists
         (UpdateUserDto.email dto) (UpdateUserDto.username dto) (Some id) s)
  = Ok tt ->
  fst (db_update (by_id id) (UsersService.apply_update dto now) (other s))
  = Err (DatabaseError unique_violation) ->
  fst (UsersService.update other id now dto s) = Err conflict_on_write.
Proof.
  intros Hf Hc Hw.
  unfold UsersService.update. unfold bind at 1.
  unfold UsersService.findUserById, bind, db_select in Hf |- *.
  destruct (first (filter _ s)); [|discriminate Hf].
  cbn [ret].
  pose proof (checkUserExists_state
                (UpdateUserDto.email dto) (UpdateUserDto.username dto)
                (Some id) s) as Hs.
  assert (Hpre :
            (if truthy (UpdateUserDto.email dto)
                || truthy (UpdateUserDto.username dto)
             then UsersService.checkUserExists
                    (UpdateUserDto.email dto) (UpdateUserDto.username dto)
                    (Some id)
             else ret tt) s = (Ok tt, s)).
  { destruct (truthy (UpdateUserDto.email dto)
              || truthy (UpdateUserDto.username dto)); [|reflexivity].
    destruct (UsersService.checkUserExists _ _ _ s) as [rc sc].
    cbn [fst snd] in Hc, Hs. now subst rc sc. }
  rewrite Hpre. unfold interleave, try_catch.
  fold (by_id id).
  destruct (db_update (by_id id) (UsersService.apply_update dto now) (other s))
    as [rw sw].
  cbn [fst] in Hw. subst rw. reflexivity.
Qed.

End Uniqueness.

(** C8: a registration, or an update of an existing account, whose e-mail
    address or user name is the one of an (other) stored account up to
    case is refused by the pre-check with [ConflictException] before
    anything is written; and when the pre-check passes but the insert or
    update statement is refused by a unique constraint (SQLSTATE 23505,
    another request having taken the address or the name in between),
    the method fails with [ConflictException] as well. *)
Theorem uniqueness_conflicts :
  forall (bcrypt : Bcrypt),
    (forall (s : Store) (other : Store -> Store) (newId : string) (now : Z)
            (dto : CreateUserDto.t) (r : User),
        lowercase_keys s ->
        CreateUserDto.email dto <> "" -> CreateUserDto.username dto <> "" ->
        In r s ->
        collides (CreateUserDto.email dto) (CreateUserDto.username dto) r ->
        exists msg,
          UsersService.create bcrypt other newId now dto s
          = (Err (ConflictException msg), s))
    /\ (forall (s : Store) (other : Store -> Store) (newId : string) (now : Z)
               (dto : CreateUserDto.t),
           fst (UsersService.checkUserExists
                  (Some (CreateUserDto.email dto))
                  (Some (CreateUserDto.username dto)) None s) = Ok tt ->
           fst (db_insert
                  (UsersService.new_row
                     newId now dto
                     (UsersService.hashPassword
                        bcrypt (CreateUserDto.password dto)))
                  (other s))
           = Err (DatabaseError "23505") ->
           fst (UsersService.create bcrypt other newId now dto s)
           = Err (ConflictException
                    "User with this email or username already exists"))
    /\ (forall (s : Store) (other : Store -> Store) (id : string) (now : Z)
               (dto : UpdateUserDto.t) (a r : User),
           lowercase_keys s ->
           fst (UsersService.findUserById id s) = Ok a ->
           In r s -> users.id r <> id -> update_collides dto r ->
           exists msg,
             UsersService.update other id now dto s
             = (Err (ConflictException msg), s))
    /\ (forall (s : Store) (other : Store -> Store) (id : string) (now : Z)
               (dto : UpdateUserDto.t) (a : User),
           fst (UsersService.findUserById id s) = Ok a ->
           fst (UsersService.checkUserExists
                  (UpdateUserDto.email dto) (UpdateUserDto.username dto)
                  (Some id) s) = Ok tt ->
           fst (db_update (by_id id) (UsersService.apply_update dto now)
                          (other s))
           = Err (DatabaseError "23505") ->
           fst (UsersService.update other id now dto s)
           = Err (ConflictException
                    "User with this email or username already exists")).
Proof.
  intros bcrypt. split; [|split; [|split]].
  - intros. now apply create_precheck_conflict with (r := r).
  - intros. now apply create_race_conflict.
  - intros. now apply update_precheck_conflict with (a := a) (r := r).
  - intros. now apply update_race_conflict with (a := a).
Qed.

Lemma uniqueness_conflicts_witness :
  (exists msg,
      UsersService.create Fixture.bcrypt AuthService.alone "u3" 1000
                          (Fixture.registration "A@X.com" "carol")
                          [Fixture.account (Some 0) None]
      = (Err (ConflictException msg), [Fixture.account (Some 0) None]))
  /\ fst (UsersService.create
            Fixture.bcrypt (Fixture.registers (Fixture.account (Some 0) None))
            "u3" 1000 (Fixture.registration "a@x.com" "carol") [])
     = Err (ConflictException "User with this email or username already exists")
  /\ (exists msg,
         UsersService.update AuthService.alone "u2" 1000
                             (Fixture.change_email "A@x.com")
                             [Fixture.account (Some 0) None;
                              Fixture.other_account]
         = (Err (ConflictException msg),
            [Fixture.account (Some 0) None; Fixture.other_account]))
  /\ fst (UsersService.update
            (Fixture.registers (Fixture.account (Some 0) None)) "u2" 1000
            (Fixture.change_email "a@x.com") [Fixture.other_account])
     = Err (ConflictException "User with this email or username already exists").
Proof.
  destruct (uniqueness_conflicts Fixture.bcrypt) as [A [B [C D]]].
  split; [|split; [|split]].
  - apply (A [Fixture.account (Some 0) None] AuthService.alone "u3" 1000
             (Fixture.registration "A@X.com" "carol")
             (Fixture.account (Some 0) None)).
    + intros r [<-|[]]. split; reflexivity.
    + discriminate.
    + discriminate.
    + simpl; tauto.
    + left. reflexivity.
  - apply (B [] (Fixture.registers (Fixture.account (Some 0) None)) "u3" 1000
             (Fixture.registration "a@x.com" "carol")); reflexivity.
  - apply (C [Fixture.account (Some 0) None; Fixture.other_account]
             AuthService.alone "u2" 1000 (Fixture.change_email "A@x.com")
             Fixture.other_account (Fixture.account (Some 0) None)).
    + intros r [<-|[<-|[]]]; split; reflexivity.
    + reflexivity.
    + simpl; tauto.
    + discriminate.
    + left. exists "A@x.com". repeat split. discriminate.
  - apply (D [Fixture.other_account]
             (Fixture.registers (Fixture.account (Some 0) None)) "u2" 1000
             (Fixture.change_email "a@x.com") Fixture.other_account);
      reflexivity.
Defined.

(** ** What holds when the address is typed as it is stored *)

Section StoredAddress.

Variable bcrypt : Bcrypt.
Variable jwtService : JwtService.
Variable appConfig : AppConfig.

Lemma reset_table_unique (e : string) (now : Z) (s : Store) :
  unique_emails s ->
  unique_emails
    (map (fun r => if by_email e r then UsersService.set_reset now r else r) s).
Proof.
  unfold unique_emails. intros H.
  now rewrite (map_keeps_emails e _ s (set_reset_keeps_keys now)).
Qed.

(** The success path of [login], from the table [s1] that the lock check
    leaves. *)
Lemma login_run_success
      (dto : LoginDto) (now : Z) (s s1 : Store) (u : User) :
  UsersService.isAccountLocked (login_email dto) now s = (Ok false, s1) ->
  account_of (toLowerCase (login_email dto)) s1 = Some u ->
  bcrypt_compare bcrypt (login_password dto) (users.password u) = true ->
  users.isActive u = true ->
  exists response,
    AuthService.login bcrypt jwtService appConfig dto now s
    = (Ok response,
       map (fun r => if by_email (login_email dto) r
                     then UsersService.set_reset now r else r) s1).
Proof.
  intros Hlock Hacc Hpw Hact.
  rewrite login_run. cbv zeta.
  rewrite Hlock, Hacc, Hpw, Hact. cbn [negb].
  rewrite updateLoginAttempts_reset_run. cbn [snd].
  destruct (first_filter_some _ _ _ Hacc) as [Hin _].
  set (reset := fun r => if by_email (login_email dto) r
                         then UsersService.set_reset now r else r).
  assert (Hin2 : In (reset u) (map reset s1)) by now apply in_map.
  assert (Hid : by_id (users.id u) (reset u) = true).
  { subst reset. cbv beta. unfold by_id.
    destruct (by_email (login_email dto) u); apply String.eqb_refl. }
  destruct (first_filter_exists _ _ _ Hin2 Hid) as [v ->].
  eexists. reflexivity.
Qed.

(** A login under the stored (lower-case) address of an active account
    whose lock, if any, has run out, with the right password: it
    succeeds, and afterwards the counter of the account is zero, its lock
    is cleared and its [lastLoginAt] is the time of the login. *)
Lemma login_success_with_stored_email
      (s : Store) (a : User) (pw : string) (now : Z) :
  unique_emails s -> In a s ->
  toLowerCase (users.email a) = users.email a ->
  (forall t, users.lockUntil a = Some t -> t <= now) ->
  bcrypt_compare bcrypt pw (users.password a) = true ->
  users.isActive a = true ->
  let run := AuthService.login
               bcrypt jwtService appConfig
               {| login_email := users.email a; login_password := pw |} now s in
  (exists response, fst run = Ok response)
  /\ account_of (users.email a) (snd run)
     = Some (UsersService.set_reset now a).
Proof.
  intros Hu Hin Hlow Hlock Hpw Hact run. subst run.
  set (reset := fun r => if by_email (users.email a) r
                         then UsersService.set_reset now r else r).
  assert (Hcheck :
            exists s1 u,
              UsersService.isAccountLocked (users.email a) now s = (Ok false, s1)
              /\ unique_emails s1 /\ In u s1
              /\ users.email u = users.email a
              /\ users.password u = users.password a
              /\ users.isActive u = users.isActive a
              /\ UsersService.set_reset now u = UsersService.set_reset now a).
  { rewrite isAccountLocked_run, (filter_unique_email s a Hu Hin).
    cbn [first].
    destruct (users.lockUntil a) as [t|] eqn:Hl.
    - destruct (Z.ltb_spec now t) as [Hlt|_];
        [specialize (Hlock t eq_refl); lia|].
      exists (map reset s), (UsersService.set_reset now a).
      repeat split.
      + now apply reset_table_unique.
      + now apply map_unique_email.
    - exists s, a. repeat split; assumption. }
  destruct Hcheck as [s1 [u [Hrun [Hu1 [Hin1 [He [Hp [Ha Hr]]]]]]]].
  destruct (login_run_success
              {| login_email := users.email a; login_password := pw |}
              now s s1 u) as [response Hlogin].
  - exact Hrun.
  - cbn [login_email]. unfold account_of.
    now rewrite Hlow, <- He, (filter_unique_email s1 u Hu1 Hin1).
  - cbn [login_password]. now rewrite Hp.
  - now rewrite Ha.
  - rewrite Hlogin. cbn [fst snd login_email]. split; [now exists response|].
    unfold account_of. rewrite <- He.
    rewrite (filter_after_update _ s1 u (set_reset_keeps_keys now) Hu1 Hin1).
    cbn [first]. now rewrite Hr.
Qed.

(** A login under the stored (lower-case) address of an account that
    carries no lock, with a wrong password: invalid credentials, one more
    failed attempt on the counter, and the lock as [failure_lock] sets it. *)
Lemma login_failure_with_stored_email
      (s : Store) (a : User) (pw : string) (now : Z) :
  unique_emails s -> In a s ->
  toLowerCase (users.email a) = users.email a ->
  users.lockUntil a = None ->
  bcrypt_compare bcrypt pw (users.password a) = false ->
  let run := AuthService.login
               bcrypt jwtService appConfig
               {| login_email := users.email a; login_password := pw |} now s in
  let attempts := num_or (users.loginAttempts a) 0 + 1 in
  fst run = Err invalid_credentials
  /\ account_of (users.email a) (snd run)
     = Some (UsersService.set_failure attempts (failure_lock attempts now) now a).
Proof.
  intros Hu Hin Hlow Hl Hpw run attempts. subst run attempts.
  rewrite login_run. cbn [login_email login_password]. cbv zeta.
  rewrite isAccountLocked_run, (filter_unique_email s a Hu Hin).
  cbn [first]. rewrite Hl, Hlow.
  assert (Ha : account_of (users.email a) s = Some a)
    by (unfold account_of; now rewrite (filter_unique_email s a Hu Hin)).
  rewrite Ha, Hpw. cbn [negb fst snd]. split; [reflexivity|].
  exact (updateLoginAttempts_failure_counts s a now Hu Hin).
Qed.

(** However many logins spell the address of the account with an
    upper-case letter and give a wrong password, the table stays as it
    was: they never lock the account. *)
Lemma uppercase_attempts_never_lock
      (s : Store) (a : User) (requests : list (LoginDto * Z)) :
  unique_emails s -> lowercase_keys s -> In a s ->
  (forall request, In request requests ->
     toLowerCase (login_email (fst request)) = users.email a
     /\ has_uppercase (login_email (fst request)) = true
     /\ bcrypt_compare bcrypt (login_password (fst request))
                       (users.password a) = false) ->
  after_logins bcrypt jwtService appConfig requests s = s.
Proof.
  intros Hu Hl Hin. unfold after_logins.
  induction requests as [|[dto now] requests IH]; intros H; [reflexivity|].
  cbn [fold_left fst snd].
  destruct (H (dto, now) (or_introl eq_refl)) as [He [Hup Hpw]].
  cbn [fst] in He, Hup, Hpw. destruct dto as [e pw].
  cbn [login_email login_password] in He, Hup, Hpw.
  rewrite (login_unmatched_address_wrong_password
             bcrypt jwtService appConfig s a e pw now Hu Hin He
             (no_row_with_uppercase s e Hl Hup) Hpw).
  cbn [snd]. apply IH. intros request Hr. apply H. now right.
Qed.

End StoredAddress.

(** ** The invariants that the properties assume *)

Lemma NoDup_snoc {A} (l : list A) (x : A) :
  NoDup l -> ~ In x l -> NoDup (l ++ [x]).
Proof.
  induction l as [|y l IH]; cbn; intros Hl Hx.
  - constructor; [easy | constructor].
  - inversion Hl as [|? ? Hy Hl']; subst. constructor.
    + intros Hin. apply in_app_or in Hin as [Hin|[<-|[]]]; [easy|].
      apply Hx. now left.
    + apply IH; [exact Hl'|]. intros Hin. apply Hx. now right.
Qed.

(** The insert statement keeps the e-mail addresses unique. *)
Lemma db_insert_unique_emails (row : User) (s : Store) :
  unique_emails s -> unique_emails (snd (db_insert row s)).
Proof.
  unfold unique_emails, db_insert. intros Hu.
  match goal with
  | |- context [existsb ?f s] => destruct (existsb f s) eqn:E
  end; cbn [snd]; [exact Hu|].
  rewrite map_app. cbn [map].
  assert (Hfresh : ~ In (users.email row) (map users.email s)).
  { intros Hin. apply in_map_iff in Hin as [r [Hr Hin]].
    rewrite <- not_true_iff_false in E. apply E.
    apply existsb_exists. exists r. split; [exact Hin|].
    now rewrite Hr, String.eqb_refl, orb_true_r. }
  now apply NoDup_snoc.
Qed.

(** A registration with a lower-case address and name, as the
    [@Transform] of [CreateUserDto] delivers them, keeps the table in
    lower case. *)
Lemma create_keeps_lowercase_keys
      (bcrypt : Bcrypt) (newId : string) (now : Z) (dto : CreateUserDto.t)
      (s : Store) :
  toLowerCase (CreateUserDto.email dto) = CreateUserDto.email dto ->
  toLowerCase (CreateUserDto.username dto) = CreateUserDto.username dto ->
  lowercase_keys s ->
  lowercase_keys
    (snd (UsersService.create bcrypt AuthService.alone newId now dto s)).
Proof.
  intros He Hn Hl.
  unfold UsersService.create. unfold bind at 1.
  pose proof (checkUserExists_state
                (Some (CreateUserDto.email dto))
                (Some (CreateUserDto.username dto)) None s) as Hs.
  destruct (UsersService.checkUserExists _ _ _ s) as [[[]|x] sc];
    cbn [snd] in Hs; subst sc; [|exact Hl].
  unfold bind, interleave, AuthService.alone, try_catch, db_insert.
  match goal with
  | |- context [existsb ?f s] => destruct (existsb f s)
  end; cbn; [exact Hl|].
  intros r Hr. apply in_app_or in Hr as [Hr|[<-|[]]]; [now apply Hl|].
  split; assumption.
Qed.

(** An update with a lower-case address and name keeps the table in lower
    case. *)
Lemma update_keeps_lowercase_keys
      (id : string) (now : Z) (dto : UpdateUserDto.t) (s : Store) :
  (forall e, UpdateUserDto.email dto = Some e -> toLowerCase e = e) ->
  (forall n, UpdateUserDto.username dto = Some n -> toLowerCase n = n) ->
  lowercase_keys s ->
  lowercase_keys (snd (UsersService.update AuthService.alone id now dto s)).
Proof.
  intros He Hn Hl.
  unfold UsersService.update. unfold bind at 1.
  unfold UsersService.findUserById, bind at 1, db_select.
  destruct (first (filter _ s)); cbn [ret throw]; [|exact Hl].
  unfold bind at 1.
  pose proof (checkUserExists_state
                (UpdateUserDto.email dto) (UpdateUserDto.username dto)
                (Some id) s) as Hs.
  destruct (truthy (UpdateUserDto.email dto)
            || truthy (UpdateUserDto.username dto)).
  - destruct (UsersService.checkUserExists _ _ _ s) as [[[]|x] sc];
      cbn [snd] in Hs; subst sc; [|exact Hl].
    unfold bind, interleave, AuthService.alone, try_catch, db_update.
    match goal with
    | |- context [existsb ?f s] => destruct (existsb f s)
    end; cbn; [exact Hl|].
    intros r Hr. apply in_map_iff in Hr as [r0 [<- Hr0]].
    destruct (Hl r0 Hr0) as [H1 H2].
    destruct (String.eqb (users.id r0) id); [|now split].
    unfold UsersService.apply_update, UsersService.or_else. cbn.
    destruct (UpdateUserDto.email dto) as [e|] eqn:Ee,
             (UpdateUserDto.username dto) as [n|] eqn:En;
      split; auto.
  - unfold ret at 1.
    unfold bind, interleave, AuthService.alone, try_catch, db_update.
    match goal with
    | |- context [existsb ?f s] => destruct (existsb f s)
    end; cbn; [exact Hl|].
    intros r Hr. apply in_map_iff in Hr as [r0 [<- Hr0]].
    destruct (Hl r0 Hr0) as [H1 H2].
    destruct (String.eqb (users.id r0) id); [|now split].
    unfold UsersService.apply_update, UsersService.or_else. cbn.
    destruct (UpdateUserDto.email dto) as [e|] eqn:Ee,
             (UpdateUserDto.username dto) as [n|] eqn:En;
      split; auto.
Qed.


(** * Further properties of the services *)

(** ** Pagination and listing *)













(** ** Sorting and searching *)

Lemma in_by_eqb (c : string) (l : list string) :
  existsb (String.eqb c) l = true -> In c l.
Proof.
  intros H. apply existsb_exists in H as [x [Hin Heq]].
  apply String.eqb_eq in Heq. now subst.
Qed.

Lemma allowed_sort_field_column (field : string) :
  In field FilterUtil.allowedSortFields ->
  field <> ""
  /\ In (FilterUtil.convertToDbField field) users_columns.
Proof.
  intros H. cbn in H.
  repeat (destruct H as [<-|H];
          [split; [discriminate | apply in_by_eqb; reflexivity]|]).
  contradiction.
Qed.


(** X5: a sort field that [validateAndNormalizePagination] accepts
    ([isValidSortField]) is one that [buildSortCondition] honours: the
    statement is ordered by the column of that field, in the direction
    asked for (ascending when none is), and the fallback is not taken. *)
Theorem valid_sort_field_is_honoured :
  forall (field : string) (sortOrder : option SortOrder),
    PaginationUtil.isValidSortField field = true ->
    FilterUtil.buildSortCondition (Some field) sortOrder
    = {| order_column := FilterUtil.convertToDbField field;
         order_direction := match sortOrder with
                            | Some DESC => DESC
                            | _ => ASC
                            end |}
    /\ In (FilterUtil.convertToDbField field) users_columns.
Proof.
  intros field sortOrder H.
  unfold PaginationUtil.isValidSortField in H.
  change PaginationUtil.allowedSortFields with FilterUtil.allowedSortFields in H.
  pose proof (in_by_eqb _ _ H) as Hin.
  destruct (allowed_sort_field_column field Hin) as [Hne Hcol].
  split; [|exact Hcol].
  unfold FilterUtil.buildSortCondition.
  destruct field as [|c field]; [congruence|].
  rewrite H. cbn [negb].
  destruct sortOrder as [[]|]; reflexivity.
Qed.

Lemma valid_sort_field_is_honoured_witness :
  FilterUtil.buildSortCondition (Some "lastLoginAt") (Some DESC)
  = {| order_column := FilterUtil.convertToDbField "lastLoginAt";
       order_direction := DESC |}
  /\ In (FilterUtil.convertToDbField "lastLoginAt") users_columns.
Proof.
  apply (valid_sort_field_is_honoured "lastLoginAt" (Some DESC)).
  reflexivity.
Defined.

Lemma space_is_no_wildcard (c : ascii) :
  FilterUtil.is_space c = true -> FilterUtil.is_wildcard c = false.
Proof.
  destruct c as [[] [] [] [] [] [] [] []]; cbn; intros H;
    try discriminate H; reflexivity.
Qed.

Lemma wildcard_is_no_space (c : ascii) :
  FilterUtil.is_wildcard c = true -> FilterUtil.is_space c = false.
Proof.
  destruct c as [[] [] [] [] [] [] [] []]; cbn; intros H;
    try discriminate H; reflexivity.
Qed.

Lemma trimEnd_keeps (c : ascii) (s : string) :
  FilterUtil.is_space c = false ->
  FilterUtil.trimEnd (String c s) = String c (FilterUtil.trimEnd s).
Proof.
  intros H. cbn [FilterUtil.trimEnd].
  destruct (FilterUtil.trimEnd s); [now rewrite H | reflexivity].
Qed.

Lemma escape_wildcards_well_escaped (s : string) :
  well_escaped (FilterUtil.escape_wildcards s) = true.
Proof.
  induction s as [|c s IH]; [reflexivity|].
  cbn [FilterUtil.escape_wildcards].
  destruct (FilterUtil.is_wildcard c) eqn:E.
  - cbn [well_escaped].
    change (FilterUtil.is_wildcard FilterUtil.backslash) with true.
    cbv iota. rewrite Ascii.eqb_refl, E, IH. reflexivity.
  - cbn [well_escaped]. now rewrite E.
Qed.

Lemma trimStart_well_escaped (s : string) :
  well_escaped s = true -> well_escaped (FilterUtil.trimStart s) = true.
Proof.
  induction s as [|c s IH]; intros H; [reflexivity|].
  cbn [FilterUtil.trimStart].
  destruct (FilterUtil.is_space c) eqn:E; [|exact H].
  apply IH. cbn [well_escaped] in H.
  now rewrite (space_is_no_wildcard c E) in H.
Qed.

Lemma trimEnd_well_escaped_bounded (n : nat) (s : string) :
  (String.length s <= n)%nat ->
  well_escaped s = true -> well_escaped (FilterUtil.trimEnd s) = true.
Proof.
  revert s. induction n as [|n IH]; intros s Hn H.
  - destruct s; [reflexivity | cbn in Hn; lia].
  - destruct s as [|c s]; [reflexivity|].
    cbn [well_escaped] in H.
    destruct (FilterUtil.is_wildcard c) eqn:Ec.
    + destruct s as [|d s]; [discriminate H|].
      apply andb_true_iff in H as [H Hs].
      apply andb_true_iff in H as [Hc Hd].
      rewrite (trimEnd_keeps c _ (wildcard_is_no_space c Ec)).
      rewrite (trimEnd_keeps d _ (wildcard_is_no_space d Hd)).
      cbn [well_escaped]. rewrite Ec, Hc, Hd. cbn [andb].
      apply IH; [cbn in Hn |- *; lia | exact Hs].
    + assert (Hs : well_escaped (FilterUtil.trimEnd s) = true)
        by (apply IH; [cbn in Hn; lia | exact H]).
      cbn [FilterUtil.trimEnd].
      destruct (FilterUtil.trimEnd s) as [|d rest] eqn:Et.
      * destruct (FilterUtil.is_space c); [reflexivity|].
        cbn [well_escaped]. now rewrite Ec.
      * cbn [well_escaped]. rewrite Ec. exact Hs.
Qed.

Lemma trimEnd_last_char (s : string) (c : ascii) :
  last_char (FilterUtil.trimEnd s) = Some c -> FilterUtil.is_space c = false.
Proof.
  induction s as [|x s IH]; [discriminate|].
  cbn [FilterUtil.trimEnd].
  destruct (FilterUtil.trimEnd s) as [|d rest] eqn:Et.
  - destruct (FilterUtil.is_space x) eqn:Ex; [discriminate|].
    cbn. now intros [= <-].
  - intros H. apply IH. exact H.
Qed.

Lemma trimStart_first_char (s : string) (c : ascii) :
  first_char (FilterUtil.trimStart s) = Some c -> FilterUtil.is_space c = false.
Proof.
  induction s as [|x s IH]; [discriminate|].
  cbn [FilterUtil.trimStart].
  destruct (FilterUtil.is_space x) eqn:Ex; [exact IH|].
  cbn. now intros [= <-].
Qed.

Lemma trim_first_char (s : string) (c : ascii) :
  first_char (FilterUtil.trim s) = Some c -> FilterUtil.is_space c = false.
Proof.
  unfold FilterUtil.trim.
  pose proof (trimStart_first_char s) as H.
  destruct (FilterUtil.trimStart s) as [|x t]; [discriminate|].
  specialize (H x eq_refl). rewrite (trimEnd_keeps x t H).
  cbn. now intros [= <-].
Qed.

(** X6: a search term that [sanitizeSearchTerm] lets through is not
    empty, neither starts nor ends with white space, and is a [LIKE]
    pattern without wildcards of its own: every percent sign, underscore
    and backslash in it is preceded by a backslash that escapes it. *)
Theorem sanitizeSearchTerm_escapes_wildcards :
  forall (search : option string) (term : string),
    FilterUtil.sanitizeSearchTerm search = Some term ->
    term <> ""
    /\ well_escaped term = true
    /\ (forall c, first_char term = Some c -> FilterUtil.is_space c = false)
    /\ (forall c, last_char term = Some c -> FilterUtil.is_space c = false).
Proof.
  intros [raw|] term; [|discriminate].
  unfold FilterUtil.sanitizeSearchTerm.
  destruct raw as [|c raw]; [discriminate|].
  cbv zeta.
  set (t := FilterUtil.trim (FilterUtil.escape_wildcards (String c raw))).
  destruct (Nat.ltb 0 (String.length t)) eqn:E; [|discriminate].
  intros Heq. assert (Ht : term = t) by (injection Heq; auto).
  clear Heq. subst term. repeat split.
  - intros H. rewrite H in E. discriminate E.
  - subst t. unfold FilterUtil.trim.
    apply (trimEnd_well_escaped_bounded _ _ (le_n _)).
    apply trimStart_well_escaped, escape_wildcards_well_escaped.
  - subst t. apply trim_first_char.
  - subst t. unfold FilterUtil.trim. apply trimEnd_last_char.
Qed.

Lemma sanitizeSearchTerm_escapes_wildcards_witness :
  FilterUtil.sanitizeSearchTerm (Some "  50%_off ") = Some "50\%\_off"
  /\ "50\%\_off" <> ""
  /\ well_escaped "50\%\_off" = true
  /\ (forall c, first_char "50\%\_off" = Some c ->
        FilterUtil.is_space c = false)
  /\ (forall c, last_char "50\%\_off" = Some c ->
        FilterUtil.is_space c = false).
Proof.
  split; [reflexivity|].
  apply (sanitizeSearchTerm_escapes_wildcards (Some "  50%_off ") "50\%\_off").
  reflexivity.
Defined.

(** ** Deleting an account *)

Lemma findUserById_run (id : string) (s : Store) :
  UsersService.findUserById id s
  = match first (filter (by_id id) s) with
    | Some user => (Ok user, s)
    | None => (Err (NotFoundException "User not found"), s)
    end.
Proof.
  unfold UsersService.findUserById, bind, db_select. fold (by_id id).
  destruct (first (filter (by_id id) s)); reflexivity.
Qed.

Lemma findUserById_found (id : string) (s : Store) (a : User) :
  fst (UsersService.findUserById id s) = Ok a ->
  first (filter (by_id id) s) = Some a.
Proof.
  rewrite findUserById_run.
  destruct (first (filter (by_id id) s)); cbn; congruence.
Qed.

Lemma filter_filter_neg {A} (p : A -> bool) (l : list A) :
  filter p (filter (fun x => negb (p x)) l) = [].
Proof.
  induction l as [|x l IH]; [reflexivity|].
  cbn. destruct (p x) eqn:E; cbn; [exact IH | now rewrite E].
Qed.

Lemma remove_run (id : string) (s : Store) :
  UsersService.remove id s
  = match first (filter (by_id id) s) with
    | Some _ =>
        (Ok {| message := "User deleted successfully" |},
         filter (fun r => negb (by_id id r)) s)
    | None => (Err (NotFoundException "User not found"), s)
    end.
Proof.
  unfold UsersService.remove. unfold bind at 1.
  rewrite findUserById_run.
  destruct (first (filter (by_id id) s)) as [u|] eqn:E; [|reflexivity].
  unfold bind, db_delete. fold (by_id id). now rewrite E.
Qed.

(** X7: [remove] of an account that exists answers "User deleted
    successfully"; afterwards [findOne] of that id fails with
    [NotFoundException], and the rows of every other id are still there,
    unchanged. *)
Theorem remove_then_findOne :
  forall (id : string) (s : Store) (a : User),
    fst (UsersService.findUserById id s) = Ok a ->
    let run := UsersService.remove id s in
    fst run = Ok {| message := "User deleted successfully" |}
    /\ fst (UsersService.findOne id (snd run))
       = Err (NotFoundException "User not found")
    /\ (forall r, In r (snd run) <-> In r s /\ users.id r <> id).
Proof.
  intros id s a Hf run. subst run.
  apply findUserById_found in Hf.
  rewrite remove_run, Hf. cbn [fst snd].
  split; [reflexivity|]. split.
  - unfold UsersService.findOne, bind. rewrite findUserById_run.
    now rewrite filter_filter_neg.
  - intros r. rewrite filter_In. unfold by_id.
    rewrite negb_true_iff, String.eqb_neq. tauto.
Qed.

Lemma remove_then_findOne_witness :
  let run := UsersService.remove
               "u1" [Fixture.account (Some 0) None; Fixture.other_account] in
  fst run = Ok {| message := "User deleted successfully" |}
  /\ fst (UsersService.findOne "u1" (snd run))
     = Err (NotFoundException "User not found")
  /\ (forall r, In r (snd run)
                <-> In r [Fixture.account (Some 0) None; Fixture.other_account]
                    /\ users.id r <> "u1").
Proof.
  apply (remove_then_findOne
           "u1" [Fixture.account (Some 0) None; Fixture.other_account]
           (Fixture.account (Some 0) None)).
  reflexivity.
Defined.

(** X8: [remove] of an id that no row has fails with
    [NotFoundException "User not found"] and leaves the table as it was. *)
Theorem remove_unknown_id :
  forall (id : string) (s : Store),
    (forall r, In r s -> users.id r <> id) ->
    UsersService.remove id s = (Err (NotFoundException "User not found"), s).
Proof.
  intros id s H.
  rewrite remove_run.
  destruct (first (filter (by_id id) s)) as [u|] eqn:E; [|reflexivity].
  destruct (first_filter_some _ _ _ E) as [Hin Hid].
  unfold by_id in Hid. apply String.eqb_eq in Hid.
  now destruct (H u Hin).
Qed.

Lemma remove_unknown_id_witness :
  UsersService.remove "u9" [Fixture.account (Some 0) None; Fixture.other_account]
  = (Err (NotFoundException "User not found"),
     [Fixture.account (Some 0) None; Fixture.other_account]).
Proof.
  apply remove_unknown_id.
  intros r [<-|[<-|[]]]; simpl; discriminate.
Defined.

(** ** Changing the password *)

Lemma set_password_keeps_keys (h : string) (now : Z) :
  keeps_keys (UsersService.set_password h now).
Proof. intros r. split; reflexivity. Qed.

Lemma map_keeps_emails_where
      (p : User -> bool) (f : User -> User) (s : Store) :
  keeps_keys f ->
  map users.email (map (fun r => if p r then f r else r) s)
  = map users.email s.
Proof.
  intros Hf. rewrite map_map. apply map_ext. intros r.
  destruct (p r); [apply Hf | reflexivity].
Qed.

(** The first row of an id after an update of the rows of that id. *)
Lemma first_by_id_after_update (id : string) (f : User -> User) (s : Store) :
  (forall r, users.id (f r) = users.id r) ->
  first (filter (by_id id) (map (fun r => if by_id id r then f r else r) s))
  = option_map f (first (filter (by_id id) s)).
Proof.
  intros Hf. induction s as [|x s IH]; [reflexivity|].
  cbn [map filter]. destruct (by_id id x) eqn:E.
  - unfold by_id at 1. rewrite Hf. fold (by_id id x). rewrite E. reflexivity.
  - rewrite E. exact IH.
Qed.

Lemma changePassword_run
      (bcrypt : Bcrypt) (id : string) (now : Z) (dto : ChangePasswordDto.t)
      (s : Store) :
  UsersService.changePassword bcrypt id now dto s
  = if negb (String.eqb (ChangePasswordDto.newPassword dto)
                        (ChangePasswordDto.confirmPassword dto))
    then (Err (BadRequestException
                 "New password and confirm password do not match"), s)
    else
      match first (filter (by_id id) s) with
      | None => (Err (NotFoundException "User not found"), s)
      | Some user =>
          if negb (bcrypt_compare bcrypt (ChangePasswordDto.currentPassword dto)
                                  (users.password user))
          then (Err (UnauthorizedException "Current password is incorrect"), s)
          else
            (Ok {| message := "Password changed successfully" |},
             map (fun r =>
                    if by_id id r
                    then UsersService.set_password
                           (UsersService.hashPassword
                              bcrypt (ChangePasswordDto.newPassword dto))
                           now r
                    else r) s)
      end.
Proof.
  unfold UsersService.changePassword. cbv zeta.
  destruct (negb (String.eqb (ChangePasswordDto.newPassword dto)
                             (ChangePasswordDto.confirmPassword dto)));
    [reflexivity|].
  unfold bind at 1. rewrite findUserById_run.
  destruct (first (filter (by_id id) s)) as [user|]; [|reflexivity].
  destruct (negb (bcrypt_compare bcrypt (ChangePasswordDto.currentPassword dto)
                                 (users.password user))); [reflexivity|].
  unfold bind. fold (by_id id).
  now rewrite (db_update_keeps_keys _ _ _ (set_password_keeps_keys _ now)).
Qed.

(** X9: [changePassword] refuses, and writes nothing, in three cases: the
    confirmation differs from the new password ([BadRequestException],
    checked before the account is looked up, so even for an unknown id);
    no row has the id ([NotFoundException]); the current password does
    not verify against the stored hash ([UnauthorizedException "Current
    password is incorrect"]). *)
Theorem changePassword_refusals :
  forall (bcrypt : Bcrypt) (id : string) (now : Z) (dto : ChangePasswordDto.t)
         (s : Store),
    (ChangePasswordDto.newPassword dto <> ChangePasswordDto.confirmPassword dto ->
     UsersService.changePassword bcrypt id now dto s
     = (Err (BadRequestException
               "New password and confirm password do not match"), s))
    /\ (ChangePasswordDto.newPassword dto = ChangePasswordDto.confirmPassword dto ->
        (forall r, In r s -> users.id r <> id) ->
        UsersService.changePassword bcrypt id now dto s
        = (Err (NotFoundException "User not found"), s))
    /\ (forall a,
           ChangePasswordDto.newPassword dto
           = ChangePasswordDto.confirmPassword dto ->
           fst (UsersService.findUserById id s) = Ok a ->
           bcrypt_compare bcrypt (ChangePasswordDto.currentPassword dto)
                          (users.password a) = false ->
           UsersService.changePassword bcrypt id now dto s
           = (Err (UnauthorizedException "Current password is incorrect"), s)).
Proof.
  intros bcrypt id now dto s. rewrite changePassword_run.
  split; [|split].
  - intros H. apply String.eqb_neq in H. now rewrite H.
  - intros H Hno. apply String.eqb_eq in H. rewrite H. cbn [negb].
    destruct (first (filter (by_id id) s)) as [u|] eqn:E; [|reflexivity].
    destruct (first_filter_some _ _ _ E) as [Hin Hid].
    unfold by_id in Hid. apply String.eqb_eq in Hid.
    now destruct (Hno u Hin).
  - intros a H Hf Hpw. apply String.eqb_eq in H. rewrite H. cbn [negb].
    apply findUserById_found in Hf. now rewrite Hf, Hpw.
Qed.

Lemma changePassword_refusals_witness :
  UsersService.changePassword
    Fixture.bcrypt "u9" 1000
    {| ChangePasswordDto.currentPassword := "Right1!";
       ChangePasswordDto.newPassword := "NewPass1!";
       ChangePasswordDto.confirmPassword := "NewPass2!" |}
    [Fixture.account (Some 0) None]
  = (Err (BadRequestException "New password and confirm password do not match"),
     [Fixture.account (Some 0) None])
  /\ UsersService.changePassword
       Fixture.bcrypt "u9" 1000
       {| ChangePasswordDto.currentPassword := "Right1!";
          ChangePasswordDto.newPassword := "NewPass1!";
          ChangePasswordDto.confirmPassword := "NewPass1!" |}
       [Fixture.account (Some 0) None]
     = (Err (NotFoundException "User not found"),
        [Fixture.account (Some 0) None])
  /\ UsersService.changePassword
       Fixture.bcrypt "u1" 1000
       {| ChangePasswordDto.currentPassword := "Wrong1!";
          ChangePasswordDto.newPassword := "NewPass1!";
          ChangePasswordDto.confirmPassword := "NewPass1!" |}
       [Fixture.account (Some 0) None]
     = (Err (UnauthorizedException "Current password is incorrect"),
        [Fixture.account (Some 0) None]).
Proof.
  split; [|split].
  - apply (changePassword_refusals
             Fixture.bcrypt "u9" 1000
             {| ChangePasswordDto.currentPassword := "Right1!";
                ChangePasswordDto.newPassword := "NewPass1!";
                ChangePasswordDto.confirmPassword := "NewPass2!" |}
             [Fixture.account (Some 0) None]).
    discriminate.
  - apply (changePassword_refusals
             Fixture.bcrypt "u9" 1000
             {| ChangePasswordDto.currentPassword := "Right1!";
                ChangePasswordDto.newPassword := "NewPass1!";
                ChangePasswordDto.confirmPassword := "NewPass1!" |}
             [Fixture.account (Some 0) None]).
    + reflexivity.
    + intros r [<-|[]]. discriminate.
  - destruct (changePassword_refusals
                Fixture.bcrypt "u1" 1000
                {| ChangePasswordDto.currentPassword := "Wrong1!";
                   ChangePasswordDto.newPassword := "NewPass1!";
                   ChangePasswordDto.confirmPassword := "NewPass1!" |}
                [Fixture.account (Some 0) None]) as [_ [_ H]].
    apply (H (Fixture.account (Some 0) None)); reflexivity.
Defined.

(** X10: when the confirmation matches and the current password
    verifies, [changePassword] answers "Password changed successfully"
    and stores the hash (12 rounds) of the new password on the account;
    the pending reset token, the failed-attempt counter, the lock and the
    active flag of the account stay as they were, and rows of other ids
    are not written. *)
Theorem changePassword_stores_new_hash :
  forall (bcrypt : Bcrypt) (id : string) (now : Z) (dto : ChangePasswordDto.t)
         (s : Store) (a : User),
    ChangePasswordDto.newPassword dto = ChangePasswordDto.confirmPassword dto ->
    fst (UsersService.findUserById id s) = Ok a ->
    bcrypt_compare bcrypt (ChangePasswordDto.currentPassword dto)
                   (users.password a) = true ->
    let run := UsersService.changePassword bcrypt id now dto s in
    fst run = Ok {| message := "Password changed successfully" |}
    /\ (exists a',
           fst (UsersService.findUserById id (snd run)) = Ok a'
           /\ users.password a'
              = bcrypt_hash bcrypt (ChangePasswordDto.newPassword dto) 12
           /\ users.updatedAt a' = now
           /\ users.email a' = users.email a
           /\ users.passwordResetToken a' = users.passwordResetToken a
           /\ users.passwordResetExpires a' = users.passwordResetExpires a
           /\ users.loginAttempts a' = users.loginAttempts a
           /\ users.lockUntil a' = users.lockUntil a
           /\ users.isActive a' = users.isActive a)
    /\ (forall r, users.id r <> id -> In r s <-> In r (snd run)).
Proof.
  intros bcrypt id now dto s a Heq Hf Hpw run. subst run.
  apply findUserById_found in Hf.
  rewrite changePassword_run.
  apply String.eqb_eq in Heq. rewrite Heq, Hf, Hpw. cbn [negb fst snd].
  split; [reflexivity|]. split.
  - eexists. rewrite findUserById_run.
    rewrite first_by_id_after_update by reflexivity.
    rewrite Hf. cbn [option_map fst]. repeat split.
  - intros r Hr. rewrite in_map_iff. split.
    + intros Hin. exists r. split; [|exact Hin].
      unfold by_id. apply String.eqb_neq in Hr. now rewrite Hr.
    + intros [x [Hx Hin]]. destruct (by_id id x) eqn:E.
      * exfalso. apply Hr. rewrite <- Hx. cbn.
        unfold by_id in E. now apply String.eqb_eq in E.
      * now subst x.
Qed.

Lemma changePassword_stores_new_hash_witness :
  let run := UsersService.changePassword
               Fixture.bcrypt "u2" 1000
               {| ChangePasswordDto.currentPassword := "Secret22!";
                  ChangePasswordDto.newPassword := "NewPass1!";
                  ChangePasswordDto.confirmPassword := "NewPass1!" |}
               [Fixture.account (Some 0) None; Fixture.other_account] in
  fst run = Ok {| message := "Password changed successfully" |}
  /\ (exists a',
         fst (UsersService.findUserById "u2" (snd run)) = Ok a'
         /\ users.password a' = "$2b$NewPass1!"
         /\ users.updatedAt a' = 1000
         /\ users.email a' = "b@x.com"
         /\ users.passwordResetToken a' = Some "tok"
         /\ users.passwordResetExpires a' = Some 5000
         /\ users.loginAttempts a' = Some 0
         /\ users.lockUntil a' = None
         /\ users.isActive a' = false)
  /\ (forall r, users.id r <> "u2" ->
        In r [Fixture.account (Some 0) None; Fixture.other_account]
        <-> In r (snd run)).
Proof.
  apply (changePassword_stores_new_hash
           Fixture.bcrypt "u2" 1000
           {| ChangePasswordDto.currentPassword := "Secret22!";
              ChangePasswordDto.newPassword := "NewPass1!";
              ChangePasswordDto.confirmPassword := "NewPass1!" |}
           [Fixture.account (Some 0) None; Fixture.other_account]
           Fixture.other_account); reflexivity.
Defined.

(** ** What a login writes *)

Section Bookkeeping.

Variable bcrypt : Bcrypt.
Variable jwtService : JwtService.
Variable appConfig : AppConfig.

Lemma map_without_login_state
      (p : User -> bool) (f : User -> User) (s : Store) :
  (forall r, without_login_state (f r) = without_login_state r) ->
  map without_login_state (map (fun r => if p r then f r else r) s)
  = map without_login_state s.
Proof.
  intros Hf. rewrite map_map. apply map_ext. intros r.
  destruct (p r); [apply Hf | reflexivity].
Qed.

Lemma updateLoginAttempts_frame (e : string) (reset : bool) (now : Z)
      (s : Store) :
  map without_login_state (snd (UsersService.updateLoginAttempts e reset now s))
  = map without_login_state s.
Proof.
  destruct reset.
  - rewrite updateLoginAttempts_reset_run. cbn [snd].
    now apply map_without_login_state.
  - rewrite updateLoginAttempts_failure_run. cbn [snd].
    destruct (first (filter (by_email e) s)); [|reflexivity].
    now apply map_without_login_state.
Qed.

Lemma isAccountLocked_frame (e : string) (now : Z) (s : Store) :
  map without_login_state (snd (UsersService.isAccountLocked e now s))
  = map without_login_state s.
Proof.
  rewrite isAccountLocked_run.
  destruct (first (filter (by_email e) s)) as [u|]; [|reflexivity].
  destruct (users.lockUntil u) as [l|]; [|reflexivity].
  destruct (now <? l); [reflexivity|].
  cbn [snd]. now apply map_without_login_state.
Qed.

Lemma login_frame (dto : LoginDto) (now : Z) (s : Store) :
  map without_login_state
      (snd (AuthService.login bcrypt jwtService appConfig dto now s))
  = map without_login_state s.
Proof.
  rewrite login_run. cbv zeta.
  pose proof (isAccountLocked_frame (login_email dto) now s) as H1.
  destruct (UsersService.isAccountLocked (login_email dto) now s)
    as [[[|]|x] s1]; cbn [snd] in H1 |- *; try exact H1.
  rewrite <- H1.
  pose proof (updateLoginAttempts_frame (login_email dto) false now s1) as Hf.
  pose proof (updateLoginAttempts_frame (login_email dto) true now s1) as Ht.
  destruct (account_of (toLowerCase (login_email dto)) s1) as [user|];
    [|exact Hf].
  destruct (negb (bcrypt_compare bcrypt (login_password dto)
                                 (users.password user))); [exact Hf|].
  destruct (negb (users.isActive user)); [reflexivity|].
  destruct (first (filter _ _)); exact Ht.
Qed.

(** X11: whatever its outcome, a login writes nothing but the login
    bookkeeping: row by row, the table afterwards differs from the table
    before at most in [loginAttempts], [lockUntil], [lastLoginAt] and
    [updatedAt]; no row is added or removed. *)
Theorem login_writes_only_bookkeeping :
  forall (dto : LoginDto) (now : Z) (s : Store),
    map without_login_state
        (snd (AuthService.login bcrypt jwtService appConfig dto now s))
    = map without_login_state s.
Proof.
  exact login_frame.
Qed.

Lemma login_keeps_emails (dto : LoginDto) (now : Z) (s : Store) :
  map users.email (snd (AuthService.login bcrypt jwtService appConfig dto now s))
  = map users.email s.
Proof.
  pose proof (login_frame dto now s) as H.
  apply (f_equal (map users.email)) in H.
  now rewrite !map_map in H.
Qed.

(** X12: while the lock of an account lies in the future, a login under
    the stored address is refused as locked whatever the password, and
    the table is not written. *)
Theorem stored_address_locked_login_refused :
  forall (s : Store) (a : User) (pw : string) (t now : Z),
    unique_emails s -> In a s ->
    users.lockUntil a = Some t -> now < t ->
    AuthService.login bcrypt jwtService appConfig
                      {| login_email := users.email a; login_password := pw |}
                      now s
    = (Err (UnauthorizedException
              "Account is temporarily locked due to too many failed login attempts"),
       s).
Proof.
  intros s a pw t now Hu Hin Hl Ht.
  exact (login_locked_with_stored_email
           bcrypt jwtService appConfig s a pw t now Hu Hin Hl Ht).
Qed.

(** X13: a login under the stored lower-case address with a wrong
    password, on an account that carries no lock, fails with "Invalid
    credentials" whether or not the account is active; it adds one to the
    counter (an absent counter counts as zero), sets the lock to two hours
    from now when the new count is 5 or more and to none otherwise, and
    leaves [lastLoginAt] as it was. *)
Theorem stored_address_failure_is_counted :
  forall (s : Store) (a : User) (pw : string) (now : Z),
    unique_emails s -> In a s ->
    toLowerCase (users.email a) = users.email a ->
    users.lockUntil a = None ->
    bcrypt_compare bcrypt pw (users.password a) = false ->
    let run := AuthService.login
                 bcrypt jwtService appConfig
                 {| login_email := users.email a; login_password := pw |}
                 now s in
    fst run = Err (UnauthorizedException "Invalid credentials")
    /\ exists a',
        account_of (users.email a) (snd run) = Some a'
        /\ users.loginAttempts a' = Some (num_or (users.loginAttempts a) 0 + 1)
        /\ users.lockUntil a'
           = (if 5 <=? num_or (users.loginAttempts a) 0 + 1
              then Some (now + 7200000) else None)
        /\ users.lastLoginAt a' = users.lastLoginAt a.
Proof.
  intros s a pw now Hu Hin Hlow Hl Hpw run. subst run.
  destruct (login_failure_with_stored_email
              bcrypt jwtService appConfig s a pw now Hu Hin Hlow Hl Hpw)
    as [H1 H2].
  split; [exact H1|].
  eexists. split; [exact H2|]. repeat split.
Qed.

(** X14: a login under the stored lower-case address of an active
    account whose lock, if any, has run out, with the right password,
    succeeds; afterwards the counter of the account is 0, its lock is
    cleared and its [lastLoginAt] is the time of the login. *)
Theorem stored_address_success_resets :
  forall (s : Store) (a : User) (pw : string) (now : Z),
    unique_emails s -> In a s ->
    toLowerCase (users.email a) = users.email a ->
    (forall t, users.lockUntil a = Some t -> t <= now) ->
    bcrypt_compare bcrypt pw (users.password a) = true ->
    users.isActive a = true ->
    let run := AuthService.login
                 bcrypt jwtService appConfig
                 {| login_email := users.email a; login_password := pw |}
                 now s in
    (exists response, fst run = Ok response)
    /\ exists a',
        account_of (users.email a) (snd run) = Some a'
        /\ users.loginAttempts a' = Some 0
        /\ users.lockUntil a' = None
        /\ users.lastLoginAt a' = Some now.
Proof.
  intros s a pw now Hu Hin Hlow Hlock Hpw Hact run. subst run.
  destruct (login_success_with_stored_email
              bcrypt jwtService appConfig s a pw now Hu Hin Hlow Hlock Hpw Hact)
    as [H1 H2].
  split; [exact H1|].
  eexists. split; [exact H2|]. repeat split.
Qed.

(** X15: the failed login that brings the counter to 5 or more locks the
    account for exactly two hours: from then on every login under the
    stored address before [now + 7200000] is refused as locked, whatever
    the password, without being counted; from [now + 7200000] on the lock
    check lets the address through again. *)
Theorem threshold_failure_locks_for_two_hours :
  forall (s : Store) (a : User) (pw : string) (now : Z),
    unique_emails s -> In a s ->
    toLowerCase (users.email a) = users.email a ->
    users.lockUntil a = None ->
    4 <= num_or (users.loginAttempts a) 0 ->
    bcrypt_compare bcrypt pw (users.password a) = false ->
    let s' := snd (AuthService.login
                     bcrypt jwtService appConfig
                     {| login_email := users.email a; login_password := pw |}
                     now s) in
    (forall (t : Z) (pw' : string),
        t < now + 7200000 ->
        AuthService.login bcrypt jwtService appConfig
                          {| login_email := users.email a;
                             login_password := pw' |} t s'
        = (Err account_locked, s'))
    /\ (forall t, now + 7200000 <= t ->
          fst (UsersService.isAccountLocked (users.email a) t s') = Ok false).
Proof.
  intros s a pw now Hu Hin Hlow Hl Hn Hpw s'.
  destruct (login_failure_with_stored_email
              bcrypt jwtService appConfig s a pw now Hu Hin Hlow Hl Hpw)
    as [_ Hacc].
  fold s' in Hacc. cbv zeta in Hacc.
  assert (Hu' : unique_emails s').
  { unfold unique_emails, s'. now rewrite login_keeps_emails. }
  set (a' := UsersService.set_failure
               (num_or (users.loginAttempts a) 0 + 1)
               (failure_lock (num_or (users.loginAttempts a) 0 + 1) now) now a)
    in Hacc.
  destruct (first_filter_some _ _ _ Hacc) as [Hin' _].
  assert (Hlock : users.lockUntil a' = Some (now + 7200000)).
  { subst a'. cbn [users.lockUntil UsersService.set_failure].
    unfold failure_lock, UsersService.maxLoginAttempts, UsersService.lockTime.
    destruct (Z.leb_spec 5 (num_or (users.loginAttempts a) 0 + 1));
      [reflexivity | lia]. }
  split.
  - intros t pw' Ht.
    exact (login_locked_with_stored_email
             bcrypt jwtService appConfig s' a' pw' (now + 7200000) t
             Hu' Hin' Hlock Ht).
  - intros t Ht. rewrite isAccountLocked_run.
    change (users.email a) with (users.email a').
    rewrite (filter_unique_email s' a' Hu' Hin'). cbn [first].
    rewrite Hlock.
    destruct (Z.ltb_spec t (now + 7200000)); [lia | reflexivity].
Qed.

End Bookkeeping.

Lemma stored_address_locked_login_refused_witness :
  Fixture.login_as "a@x.com" "Right1!" 2000
                   [Fixture.account (Some 5) (Some 9000)]
  = (Err (UnauthorizedException
            "Account is temporarily locked due to too many failed login attempts"),
     [Fixture.account (Some 5) (Some 9000)]).
Proof.
  apply (stored_address_locked_login_refused
           Fixture.bcrypt Fixture.jwtService Fixture.appConfig
           [Fixture.account (Some 5) (Some 9000)]
           (Fixture.account (Some 5) (Some 9000)) "Right1!" 9000 2000).
  - repeat constructor; simpl; tauto.
  - simpl; tauto.
  - reflexivity.
  - lia.
Defined.

Lemma stored_address_failure_is_counted_witness :
  let run := Fixture.login_as "a@x.com" "Wrong1!" 2000
                              [Fixture.account (Some 4) None] in
  fst run = Err (UnauthorizedException "Invalid credentials")
  /\ exists a',
      account_of "a@x.com" (snd run) = Some a'
      /\ users.loginAttempts a' = Some 5
      /\ users.lockUntil a' = Some 7202000
      /\ users.lastLoginAt a' = None.
Proof.
  apply (stored_address_failure_is_counted
           Fixture.bcrypt Fixture.jwtService Fixture.appConfig
           [Fixture.account (Some 4) None] (Fixture.account (Some 4) None)
           "Wrong1!" 2000).
  - repeat constructor; simpl; tauto.
  - simpl; tauto.
  - reflexivity.
  - reflexivity.
  - reflexivity.
Defined.

Lemma stored_address_success_resets_witness :
  let run := Fixture.login_as "a@x.com" "Right1!" 2000
                              [Fixture.account (Some 3) (Some 500)] in
  (exists response, fst run = Ok response)
  /\ exists a',
      account_of "a@x.com" (snd run) = Some a'
      /\ users.loginAttempts a' = Some 0
      /\ users.lockUntil a' = None
      /\ users.lastLoginAt a' = Some 2000.
Proof.
  apply (stored_address_success_resets
           Fixture.bcrypt Fixture.jwtService Fixture.appConfig
           [Fixture.account (Some 3) (Some 500)]
           (Fixture.account (Some 3) (Some 500)) "Right1!" 2000).
  - repeat constructor; simpl; tauto.
  - simpl; tauto.
  - reflexivity.
  - intros t [= <-]. lia.
  - reflexivity.
  - reflexivity.
Defined.

Lemma threshold_failure_locks_for_two_hours_witness :
  let s' := snd (Fixture.login_as "a@x.com" "Wrong1!" 2000
                                  [Fixture.account (Some 4) None]) in
  (forall (t : Z) (pw' : string),
      t < 2000 + 7200000 ->
      Fixture.login_as "a@x.com" pw' t s' = (Err account_locked, s'))
  /\ (forall t, 2000 + 7200000 <= t ->
        fst (UsersService.isAccountLocked "a@x.com" t s') = Ok false).
Proof.
  apply (threshold_failure_locks_for_two_hours
           Fixture.bcrypt Fixture.jwtService Fixture.appConfig
           [Fixture.account (Some 4) None] (Fixture.account (Some 4) None)
           "Wrong1!" 2000).
  - repeat constructor; simpl; tauto.
  - simpl; tauto.
  - reflexivity.
  - reflexivity.
  - simpl. lia.
  - reflexivity.
Defined.

(** ** Who may still use a token *)

Lemma validateUser_run (payload : JwtPayload) (s : Store) :
  AuthService.validateUser payload s
  = (Ok match first (filter (by_id (jwt_sub payload)) s) with
        | Some user =>
            if users.isActive user
            then Some (UsersService.transformToResponseDto user)
            else None
        | None => None
        end, s).
Proof.
  unfold AuthService.validateUser, try_catch, UsersService.findOne.
  unfold bind at 1. unfold bind at 1. rewrite findUserById_run.
  destruct (first (filter (by_id (jwt_sub payload)) s)) as [user|];
    [|reflexivity].
  cbn. destruct (users.isActive user); reflexivity.
Qed.

Lemma refreshTokens_run
      (jwtService : JwtService) (appConfig : AppConfig)
      (token : string) (now : Z) (s : Store) :
  AuthService.refreshTokens jwtService appConfig token now s
  = (match verify jwtService token (jwtRefreshSecret appConfig) now with
     | inl _ => Err invalid_refresh_token
     | inr sub =>
         match first (filter (by_id sub) s) with
         | None => Err invalid_refresh_token
         | Some user =>
             if users.isActive user
             then Ok (issued jwtService appConfig
                             (users.id user) (users.email user)
                             (users.username user) (users.role user) now)
             else Err invalid_refresh_token
         end
     end, s).
Proof.
  unfold AuthService.refreshTokens, try_catch.
  destruct (verify jwtService token (jwtRefreshSecret appConfig) now)
    as [name|sub]; [reflexivity|].
  unfold UsersService.findOne. unfold bind at 1. unfold bind at 1.
  rewrite findUserById_run.
  destruct (first (filter (by_id sub) s)) as [user|]; [|reflexivity].
  cbn. destruct (users.isActive user); reflexivity.
Qed.

Lemma validate_run (payload : JwtPayload) (s : Store) :
  JwtStrategy.validate payload s
  = (match first (filter (by_id (jwt_sub payload)) s) with
     | Some user =>
         if users.isActive user
         then Ok (UsersService.transformToResponseDto user)
         else Err (UnauthorizedException "Invalid token or user not found")
     | None => Err (UnauthorizedException "Invalid token or user not found")
     end, s).
Proof.
  unfold JwtStrategy.validate, bind. rewrite validateUser_run.
  destruct (first (filter (by_id (jwt_sub payload)) s)) as [user|];
    [|reflexivity].
  destruct (users.isActive user); reflexivity.
Qed.

(** X16: [JwtStrategy.validate] never writes and decides on the table
    alone: it returns the response object of the stored row (its stored
    role and address, whatever the payload claims) when the subject of
    the payload is the id of an active account, and fails with
    [UnauthorizedException "Invalid token or user not found"] when the
    account is missing or inactive. *)
Theorem jwt_validate_reads_the_table :
  forall (payload : JwtPayload) (s : Store),
    JwtStrategy.validate payload s
    = (match first (filter (by_id (jwt_sub payload)) s) with
       | Some user =>
           if users.isActive user
           then Ok (UsersService.transformToResponseDto user)
           else Err (UnauthorizedException "Invalid token or user not found")
       | None => Err (UnauthorizedException "Invalid token or user not found")
       end, s).
Proof.
  exact validate_run.
Qed.

Lemma softDelete_run (id : string) (now : Z) (s : Store) (a : User) :
  first (filter (by_id id) s) = Some a ->
  exists response,
    UsersService.softDelete AuthService.alone id now s
    = (Ok response,
       map (fun r => if by_id id r
                     then UsersService.apply_update
                            (UsersController.set_active false) now r
                     else r) s).
Proof.
  intros H. unfold UsersService.softDelete.
  exact (update_without_keys id now (UsersController.set_active false) s a
                             H eq_refl eq_refl).
Qed.

(** X17: once [softDelete] has deactivated an existing account, every
    path that rests on a token is closed to it: [validateUser] answers
    [null], [JwtStrategy.validate] fails with [UnauthorizedException],
    and [refreshTokens] fails with "Invalid refresh token" for every
    token whose subject is that account. *)
Theorem softDelete_closes_token_paths :
  forall (jwtService : JwtService) (appConfig : AppConfig)
         (id : string) (now : Z) (s : Store) (a : User),
    fst (UsersService.findUserById id s) = Ok a ->
    let s' := snd (UsersService.softDelete AuthService.alone id now s) in
    (forall payload, jwt_sub payload = id ->
        fst (AuthService.validateUser payload s') = Ok None
        /\ fst (JwtStrategy.validate payload s')
           = Err (UnauthorizedException "Invalid token or user not found"))
    /\ (forall token t,
           verify jwtService token (jwtRefreshSecret appConfig) t = inr id ->
           fst (AuthService.refreshTokens jwtService appConfig token t s')
           = Err (UnauthorizedException "Invalid refresh token")).
Proof.
  intros jwtService appConfig id now s a Hf s'.
  apply findUserById_found in Hf.
  destruct (softDelete_run id now s a Hf) as [response Hrun].
  assert (Hfirst : first (filter (by_id id) s')
                   = Some (UsersService.apply_update
                             (UsersController.set_active false) now a)).
  { subst s'. rewrite Hrun. cbn [snd].
    rewrite first_by_id_after_update by reflexivity. now rewrite Hf. }
  split.
  - intros payload Hp.
    rewrite validate_run, validateUser_run, Hp, Hfirst.
    split; reflexivity.
  - intros token t Hv. rewrite refreshTokens_run, Hv, Hfirst. reflexivity.
Qed.

Lemma softDelete_closes_token_paths_witness :
  let s' := snd (UsersService.softDelete
                   AuthService.alone "u1" 1000
                   [Fixture.account (Some 0) None]) in
  (forall payload, jwt_sub payload = "u1" ->
      fst (AuthService.validateUser payload s') = Ok None
      /\ fst (JwtStrategy.validate payload s')
         = Err (UnauthorizedException "Invalid token or user not found"))
  /\ (forall token t,
         verify Fixture.jwtService token
                (jwtRefreshSecret Fixture.appConfig) t = inr "u1" ->
         fst (AuthService.refreshTokens
                Fixture.jwtService Fixture.appConfig token t s')
         = Err (UnauthorizedException "Invalid refresh token")).
Proof.
  apply (softDelete_closes_token_paths
           Fixture.jwtService Fixture.appConfig "u1" 1000
           [Fixture.account (Some 0) None] (Fixture.account (Some 0) None)).
  reflexivity.
Defined.

(** ** Deactivation, password change and profile update, seen from login *)

Section AccountLifecycle.

Variable bcrypt : Bcrypt.
Variable jwtService : JwtService.
Variable appConfig : AppConfig.

Lemma in_updated_by_id (id : string) (f : User -> User) (s : Store) (a : User) :
  In a s -> users.id a = id ->
  In (f a) (map (fun r => if by_id id r then f r else r) s).
Proof.
  intros Hin Hid. apply in_map_iff. exists a. split; [|exact Hin].
  unfold by_id. now rewrite Hid, String.eqb_refl.
Qed.

Lemma updated_by_id_unique
      (id : string) (f : User -> User) (s : Store) :
  keeps_keys f -> unique_emails s ->
  unique_emails (map (fun r => if by_id id r then f r else r) s).
Proof.
  unfold unique_emails. intros Hf Hu.
  now rewrite (map_keeps_emails_where _ _ s Hf).
Qed.

(** A login with the right password on an account that is not active. *)
Lemma login_deactivated
      (s : Store) (a : User) (pw : string) (now : Z) :
  unique_emails s -> In a s ->
  toLowerCase (users.email a) = users.email a ->
  users.lockUntil a = None ->
  bcrypt_compare bcrypt pw (users.password a) = true ->
  users.isActive a = false ->
  AuthService.login bcrypt jwtService appConfig
                    {| login_email := users.email a; login_password := pw |}
                    now s
  = (Err (UnauthorizedException "Account is deactivated"), s).
Proof.
  intros Hu Hin Hlow Hl Hpw Hact.
  rewrite login_run. cbn [login_email login_password]. cbv zeta.
  rewrite isAccountLocked_run, (filter_unique_email s a Hu Hin).
  cbn [first]. rewrite Hl, Hlow. unfold account_of.
  rewrite (filter_unique_email s a Hu Hin). cbn [first].
  now rewrite Hpw, Hact.
Qed.



Lemma Forall2_map_right {A} (R : A -> A -> Prop) (g : A -> A) (l : list A) :
  (forall x, R x (g x)) -> Forall2 R l (map g l).
Proof.
  intros H. induction l as [|x l IH]; cbn; constructor; auto.
Qed.

(** X20: whatever the body of the request holds (a new address, a new
    role, a new password, ...), [updateProfile] of an existing account
    succeeds and changes, row by row, at most the first name, the last
    name, the profile picture and [updatedAt]; address, user name,
    password, role, active flag, tokens and login bookkeeping stay as
    they were, and no row is added or removed. *)
Theorem updateProfile_touches_profile_only :
  forall (s : Store) (a : User) (user : UserResponseDto.t)
         (body : UpdateUserDto.t) (now : Z),
    fst (UsersService.findUserById (UserResponseDto.id user) s) = Ok a ->
    let run := UsersController.updateProfile AuthService.alone user body now s in
    (exists response, fst run = Ok response)
    /\ Forall2 same_but_profile s (snd run).
Proof.
  intros s a user body now Hf run. subst run.
  apply findUserById_found in Hf.
  unfold UsersController.updateProfile. cbv zeta.
  match goal with
  | |- context [UsersService.update AuthService.alone ?i ?n ?d s] =>
      destruct (update_without_keys i n d s a Hf eq_refl eq_refl)
        as [response Hrun]
  end.
  rewrite Hrun. cbn [fst snd]. split; [now exists response|].
  apply Forall2_map_right. intros r.
  destruct (by_id (UserResponseDto.id user) r); repeat split.
Qed.

End AccountLifecycle.

Lemma fixture_bcrypt_verifies_own_hash : verifies_own_hash Fixture.bcrypt.
Proof. intros password rounds. cbn. apply String.eqb_refl. Defined.



Lemma updateProfile_touches_profile_only_witness :
  let run := UsersController.updateProfile
               AuthService.alone
               (UsersService.transformToResponseDto
                  (Fixture.account (Some 0) None))
               {| UpdateUserDto.email := Some "root@x.com";
                  UpdateUserDto.username := Some "root";
                  UpdateUserDto.firstName := Some "Alicia";
                  UpdateUserDto.lastName := None;
                  UpdateUserDto.role := Some ADMIN;
                  UpdateUserDto.profilePicture := None;
                  UpdateUserDto.isActive := Some false;
                  UpdateUserDto.isEmailVerified := Some true;
                  UpdateUserDto.isTwoFactorEnabled := None;
                  UpdateUserDto.password := Some "plain";
                  UpdateUserDto.passwordResetToken := Some (Some "mine");
                  UpdateUserDto.passwordResetExpires := Some (Some 99999) |}
               1000 [Fixture.account (Some 0) None; Fixture.other_account] in
  (exists response, fst run = Ok response)
  /\ Forall2 same_but_profile
             [Fixture.account (Some 0) None; Fixture.other_account] (snd run).
Proof.
  apply (updateProfile_touches_profile_only
           [Fixture.account (Some 0) None; Fixture.other_account]
           (Fixture.account (Some 0) None)).
  reflexivity.
Defined.

(** ** Requesting a password reset *)

Lemma filter_no_id (i : string) (s : Store) :
  (forall r, In r s -> users.id r <> i) -> filter (by_id i) s = [].
Proof.
  induction s as [|x s IH]; intros H; simpl; [reflexivity|].
  unfold by_id at 1.
  destruct (String.eqb_spec (users.id x) i) as [E|_].
  - exfalso. apply (H x); [now left | exact E].
  - apply IH. intros r Hr. apply H. now right.
Qed.

Lemma filter_unique_id (s : Store) (a : User) :
  unique_ids s -> In a s ->
  filter (by_id (users.id a)) s = [a].
Proof.
  unfold unique_ids.
  induction s as [|x s IH]; intros Hnd Hin; [contradiction|].
  simpl in Hnd. inversion Hnd as [|? ? Hx Hs]; subst.
  simpl. unfold by_id at 1.
  destruct Hin as [->|Hin].
  - rewrite String.eqb_refl. f_equal.
    apply filter_no_id. intros r Hr E.
    apply Hx. rewrite <- E. now apply in_map.
  - destruct (String.eqb_spec (users.id x) (users.id a)) as [E|_].
    + exfalso. apply Hx. rewrite E. now apply in_map.
    + now apply IH.
Qed.

Lemma forgotPassword_run
      (email resetToken : string) (now : Z) (s : Store) :
  AuthService.forgotPassword email resetToken now s
  = (Ok {| message := AuthService.reset_sent |},
     match account_of (toLowerCase email) s with
     | None => s
     | Some user =>
         map (fun r =>
                if by_id (users.id user) r
                then UsersService.apply_update
                       {| UpdateUserDto.email := None;
                          UpdateUserDto.username := None;
                          UpdateUserDto.firstName := None;
                          UpdateUserDto.lastName := None;
                          UpdateUserDto.role := None;
                          UpdateUserDto.profilePicture := None;
                          UpdateUserDto.isActive := None;
                          UpdateUserDto.isEmailVerified := None;
                          UpdateUserDto.isTwoFactorEnabled := None;
                          UpdateUserDto.password := None;
                          UpdateUserDto.passwordResetToken :=
                            Some (Some resetToken);
                          UpdateUserDto.passwordResetExpires :=
                            Some (Some (now + 3600000)) |} now r
                else r) s
     end).
Proof.
  unfold AuthService.forgotPassword, UsersService.findByEmail, account_of.
  unfold bind at 1. unfold bind at 1. unfold db_select, ret at 1.
  fold (by_email (toLowerCase email)).
  destruct (first (filter (by_email (toLowerCase email)) s)) as [u|] eqn:E;
    cbn [option_map]; [|reflexivity].
  destruct (first_filter_some _ _ _ E) as [Hin _].
  assert (Hid : by_id (users.id u) u = true)
    by (unfold by_id; apply String.eqb_refl).
  destruct (first_filter_exists (by_id (users.id u)) s u Hin Hid) as [v Hv].
  unfold bind.
  match goal with
  | |- context [UsersService.update AuthService.alone ?i ?n ?d s] =>
      destruct (update_without_keys i n d s v Hv eq_refl eq_refl) as [r ->]
  end.
  reflexivity.
Qed.

(** X21: for an address that is registered (in whatever spelling it is
    typed), [forgotPassword] stores the token it drew and an expiry one
    hour ahead on that account and changes nothing else of it but
    [updatedAt]: the password still verifies as before and the login
    bookkeeping is untouched; for an address that is not registered the
    table stays as it was. *)
Theorem forgotPassword_stores_token :
  forall (email resetToken : string) (now : Z) (s : Store),
    let s' := snd (AuthService.forgotPassword email resetToken now s) in
    (forall a,
        unique_ids s ->
        account_of (toLowerCase email) s = Some a ->
        exists a',
          fst (UsersService.findUserById (users.id a) s') = Ok a'
          /\ users.passwordResetToken a' = Some resetToken
          /\ users.passwordResetExpires a' = Some (now + 3600000)
          /\ users.updatedAt a' = now
          /\ users.password a' = users.password a
          /\ users.email a' = users.email a
          /\ users.isActive a' = users.isActive a
          /\ users.loginAttempts a' = users.loginAttempts a
          /\ users.lockUntil a' = users.lockUntil a)
    /\ (account_of (toLowerCase email) s = None -> s' = s).
Proof.
  intros email resetToken now s s'. subst s'.
  rewrite forgotPassword_run. cbn [snd]. split.
  - intros a Hu Ha. rewrite Ha.
    destruct (first_filter_some _ _ _ Ha) as [Hin _].
    eexists. rewrite findUserById_run.
    rewrite first_by_id_after_update by reflexivity.
    rewrite (filter_unique_id s a Hu Hin). cbn [first option_map fst].
    repeat split.
  - intros Hn. now rewrite Hn.
Qed.

Lemma forgotPassword_stores_token_witness :
  let s := [Fixture.account (Some 2) None; Fixture.other_account] in
  (exists a',
      fst (UsersService.findUserById
             "u1" (snd (AuthService.forgotPassword "A@X.com" "k3j9" 1000 s)))
      = Ok a'
      /\ users.passwordResetToken a' = Some "k3j9"
      /\ users.passwordResetExpires a' = Some 3601000
      /\ users.updatedAt a' = 1000
      /\ users.password a' = "$2b$Right1!"
      /\ users.loginAttempts a' = Some 2)
  /\ snd (AuthService.forgotPassword "nobody@x.com" "k3j9" 1000 s) = s.
Proof.
  split.
  - destruct (forgotPassword_stores_token
                "A@X.com" "k3j9" 1000
                [Fixture.account (Some 2) None; Fixture.other_account])
      as [H _].
    destruct (H (Fixture.account (Some 2) None)) as [a' Ha'].
    + repeat constructor; simpl; intuition discriminate.
    + reflexivity.
    + exists a'. intuition.
  - apply (forgotPassword_stores_token
             "nobody@x.com" "k3j9" 1000
             [Fixture.account (Some 2) None; Fixture.other_account]).
    reflexivity.
Defined.

(** ** From registration to lookup and login *)

Section Registration.

Variable bcrypt : Bcrypt.
Variable jwtService : JwtService.
Variable appConfig : AppConfig.

Lemma create_run
      (newId : string) (now : Z) (dto : CreateUserDto.t) (s : Store) :
  UsersService.create bcrypt AuthService.alone newId now dto s
  = let row := UsersService.new_row
                 newId now dto
                 (UsersService.hashPassword bcrypt
                                            (CreateUserDto.password dto)) in
    match fst (UsersService.checkUserExists
                 (Some (CreateUserDto.email dto))
                 (Some (CreateUserDto.username dto)) None s) with
    | Err e => (Err e, s)
    | Ok _ =>
        if existsb
             (fun r => String.eqb (users.id r) newId
                       || String.eqb (users.email r) (CreateUserDto.email dto)
                       || String.eqb (users.username r)
                                     (CreateUserDto.username dto)) s
        then (Err conflict_on_write, s)
        else (Ok (Some (UsersService.transformToResponseDto row)),
              (s ++ [row])%list)
    end.
Proof.
  unfold UsersService.create. unfold bind at 1.
  pose proof (checkUserExists_state
                (Some (CreateUserDto.email dto))
                (Some (CreateUserDto.username dto)) None s) as Hs.
  destruct (UsersService.checkUserExists _ _ _ s) as [[[]|x] sc];
    cbn [fst snd] in Hs |- *; subst sc; [|reflexivity].
  unfold bind, interleave, AuthService.alone, try_catch, db_insert.
  cbn [users.id users.email users.username UsersService.new_row].
  match goal with
  | |- context [existsb ?f s] => destruct (existsb f s)
  end; reflexivity.
Qed.

(** What a successful [create] has done. *)
Lemma create_success
      (newId : string) (now : Z) (dto : CreateUserDto.t) (s : Store)
      (response : option UserResponseDto.t) :
  fst (UsersService.create bcrypt AuthService.alone newId now dto s)
  = Ok response ->
  let row := UsersService.new_row
               newId now dto
               (UsersService.hashPassword bcrypt (CreateUserDto.password dto)) in
  response = Some (UsersService.transformToResponseDto row)
  /\ snd (UsersService.create bcrypt AuthService.alone newId now dto s)
     = (s ++ [row])%list
  /\ (forall x, In x s ->
        users.id x <> newId
        /\ users.email x <> CreateUserDto.email dto
        /\ users.username x <> CreateUserDto.username dto).
Proof.
  rewrite create_run. cbv zeta.
  destruct (fst (UsersService.checkUserExists _ _ _ s)); [|discriminate].
  match goal with
  | |- context [existsb ?f s] => destruct (existsb f s) eqn:E
  end; [discriminate|].
  cbn [fst snd]. intros Heq. injection Heq as <-.
  split; [reflexivity|]. split; [reflexivity|].
  intros x Hx.
  assert (Hx' : String.eqb (users.id x) newId
                || String.eqb (users.email x) (CreateUserDto.email dto)
                || String.eqb (users.username x) (CreateUserDto.username dto)
                = false).
  { match goal with |- ?b = false => destruct b eqn:F end; [|reflexivity].
    rewrite <- E. symmetry. apply existsb_exists. exists x.
    split; [exact Hx | exact F]. }
  apply orb_false_iff in Hx' as [Hx' H3].
  apply orb_false_iff in Hx' as [H1 H2].
  repeat split; now apply String.eqb_neq.
Qed.

Lemma account_of_appended (e : string) (s : Store) (row : User) :
  (forall x, In x s -> users.email x <> e) ->
  account_of e (s ++ [row])%list
  = if by_email e row then Some row else None.
Proof.
  intros H. unfold account_of.
  rewrite filter_app, (filter_no_match e s H). cbn.
  destruct (by_email e row); reflexivity.
Qed.

(** X22: an account that [create] has stored under a lower-case address
    is found by [findByEmail] under every spelling of that address, and
    what is found is the response object that [create] returned: the new
    id, the address as given, active, not verified. *)
Theorem create_then_findByEmail :
  forall (newId : string) (now : Z) (dto : CreateUserDto.t) (s : Store)
         (response : option UserResponseDto.t) (typed : string),
    fst (UsersService.create bcrypt AuthService.alone newId now dto s)
    = Ok response ->
    toLowerCase (CreateUserDto.email dto) = CreateUserDto.email dto ->
    toLowerCase typed = CreateUserDto.email dto ->
    exists d,
      response = Some d
      /\ fst (UsersService.findByEmail
                typed
                (snd (UsersService.create
                        bcrypt AuthService.alone newId now dto s)))
         = Ok (Some d)
      /\ UserResponseDto.id d = newId
      /\ UserResponseDto.email d = CreateUserDto.email dto
      /\ UserResponseDto.isActive d = true
      /\ UserResponseDto.isEmailVerified d = false.
Proof.
  intros newId now dto s response typed Hc Hlow Htyped.
  destruct (create_success newId now dto s response Hc) as [Hr [Hs Hfresh]].
  eexists. split; [exact Hr|].
  rewrite Hs. unfold UsersService.findByEmail, bind, db_select, ret.
  fold (by_email (toLowerCase typed)). rewrite Htyped.
  cbn [fst].
  change (first (filter (by_email (CreateUserDto.email dto)) ?l))
    with (account_of (CreateUserDto.email dto) l).
  rewrite account_of_appended by (intros x Hx; apply (Hfresh x Hx)).
  unfold by_email. cbn [users.email UsersService.new_row].
  rewrite String.eqb_refl. repeat split.
Qed.

(** X23: for a hasher under which a password verifies against its own
    hash, an account that [create] has stored under a lower-case address
    logs in with the address and the password it registered with. *)
Theorem create_then_login :
  forall (newId : string) (now : Z) (dto : CreateUserDto.t) (s : Store)
         (response : option UserResponseDto.t) (t : Z),
    verifies_own_hash bcrypt ->
    fst (UsersService.create bcrypt AuthService.alone newId now dto s)
    = Ok response ->
    toLowerCase (CreateUserDto.email dto) = CreateUserDto.email dto ->
    exists granted,
      fst (AuthService.login
             bcrypt jwtService appConfig
             {| login_email := CreateUserDto.email dto;
                login_password := CreateUserDto.password dto |} t
             (snd (UsersService.create
                     bcrypt AuthService.alone newId now dto s)))
      = Ok granted.
Proof.
  intros newId now dto s response t Hlaw Hc Hlow.
  destruct (create_success newId now dto s response Hc) as [_ [Hs Hfresh]].
  rewrite Hs.
  set (row := UsersService.new_row
                newId now dto
                (UsersService.hashPassword bcrypt (CreateUserDto.password dto))).
  assert (Hacc : account_of (CreateUserDto.email dto) (s ++ [row])%list
                 = Some row).
  { rewrite account_of_appended by (intros x Hx; apply (Hfresh x Hx)).
    unfold by_email. cbn [users.email row UsersService.new_row].
    now rewrite String.eqb_refl. }
  destruct (login_run_success
              bcrypt jwtService appConfig
              {| login_email := CreateUserDto.email dto;
                 login_password := CreateUserDto.password dto |}
              t (s ++ [row])%list (s ++ [row])%list row) as [granted Hg].
  - rewrite isAccountLocked_run. cbn [login_email].
    change (first (filter (by_email (CreateUserDto.email dto)) ?l))
      with (account_of (CreateUserDto.email dto) l).
    now rewrite Hacc.
  - cbn [login_email]. now rewrite Hlow.
  - cbn [login_password]. apply Hlaw.
  - reflexivity.
  - exists granted. now rewrite Hg.
Qed.

(** X24: [create] stores the address as it is given, while [findByEmail]
    and the credential fetch of [login] look it up in lower case: an
    account created under an address with an upper-case letter (and no
    other account under its lower-case form) is not found by
    [findByEmail] under that very address, and cannot log in, not even
    with its own password. *)
Theorem create_with_uppercase_address_is_unreachable :
  forall (newId : string) (now : Z) (dto : CreateUserDto.t) (s : Store)
         (response : option UserResponseDto.t),
    fst (UsersService.create bcrypt AuthService.alone newId now dto s)
    = Ok response ->
    has_uppercase (CreateUserDto.email dto) = true ->
    (forall x, In x s ->
       users.email x <> toLowerCase (CreateUserDto.email dto)) ->
    let s' := snd (UsersService.create
                     bcrypt AuthService.alone newId now dto s) in
    fst (UsersService.findByEmail (CreateUserDto.email dto) s') = Ok None
    /\ (forall t,
           fst (AuthService.login
                  bcrypt jwtService appConfig
                  {| login_email := CreateUserDto.email dto;
                     login_password := CreateUserDto.password dto |} t s')
           = Err (UnauthorizedException "Invalid credentials")).
Proof.
  intros newId now dto s response Hc Hup Hno s'. subst s'.
  destruct (create_success newId now dto s response Hc) as [_ [Hs Hfresh]].
  rewrite Hs.
  set (row := UsersService.new_row
                newId now dto
                (UsersService.hashPassword bcrypt (CreateUserDto.password dto))).
  pose proof (has_uppercase_not_lower _ Hup) as Hne.
  assert (Hlower : account_of (toLowerCase (CreateUserDto.email dto))
                              (s ++ [row])%list = None).
  { rewrite (account_of_appended _ s row Hno).
    unfold by_email. cbn [users.email row UsersService.new_row].
    destruct (String.eqb_spec (CreateUserDto.email dto)
                              (toLowerCase (CreateUserDto.email dto)));
      [congruence | reflexivity]. }
  assert (Hexact : account_of (CreateUserDto.email dto) (s ++ [row])%list
                   = Some row).
  { rewrite account_of_appended by (intros x Hx; apply (Hfresh x Hx)).
    unfold by_email. cbn [users.email row UsersService.new_row].
    now rewrite String.eqb_refl. }
  split.
  - unfold UsersService.findByEmail, bind, db_select, ret.
    fold (by_email (toLowerCase (CreateUserDto.email dto))).
    change (first (filter (by_email ?e) ?l)) with (account_of e l).
    now rewrite Hlower.
  - intros t. rewrite login_run. cbn [login_email login_password]. cbv zeta.
    rewrite isAccountLocked_run.
    change (first (filter (by_email ?e) ?l)) with (account_of e l).
    rewrite Hexact. cbn [users.lockUntil row UsersService.new_row].
    now rewrite Hlower.
Qed.

End Registration.

Lemma create_then_findByEmail_witness :
  exists d,
    fst (UsersService.create Fixture.bcrypt AuthService.alone "u3" 1000
                             (Fixture.registration "c@x.com" "carol")
                             [Fixture.account (Some 0) None])
    = Ok (Some d)
    /\ fst (UsersService.findByEmail
              "C@X.com"
              (snd (UsersService.create
                      Fixture.bcrypt AuthService.alone "u3" 1000
                      (Fixture.registration "c@x.com" "carol")
                      [Fixture.account (Some 0) None])))
       = Ok (Some d)
    /\ UserResponseDto.id d = "u3"
    /\ UserResponseDto.email d = "c@x.com".
Proof.
  destruct (create_then_findByEmail
              Fixture.bcrypt "u3" 1000 (Fixture.registration "c@x.com" "carol")
              [Fixture.account (Some 0) None]
              (Some (UsersService.transformToResponseDto
                       (UsersService.new_row
                          "u3" 1000 (Fixture.registration "c@x.com" "carol")
                          "$2b$Passw0rd!")))
              "C@X.com" eq_refl eq_refl eq_refl) as [d [Hd [Hf [Hi [He _]]]]].
  exists d. rewrite <- Hd. repeat split; assumption.
Defined.

Lemma create_then_login_witness :
  exists granted,
    fst (Fixture.login_as
           "c@x.com" "Passw0rd!" 2000
           (snd (UsersService.create
                   Fixture.bcrypt AuthService.alone "u3" 1000
                   (Fixture.registration "c@x.com" "carol")
                   [Fixture.account (Some 0) None])))
    = Ok granted.
Proof.
  apply (create_then_login
           Fixture.bcrypt Fixture.jwtService Fixture.appConfig
           "u3" 1000 (Fixture.registration "c@x.com" "carol")
           [Fixture.account (Some 0) None]
           (Some (UsersService.transformToResponseDto
                    (UsersService.new_row
                       "u3" 1000 (Fixture.registration "c@x.com" "carol")
                       "$2b$Passw0rd!")))
           2000).
  - exact fixture_bcrypt_verifies_own_hash.
  - reflexivity.
  - reflexivity.
Defined.

Lemma create_with_uppercase_address_is_unreachable_witness :
  let s' := snd (UsersService.create
                   Fixture.bcrypt AuthService.alone "u3" 1000
                   (Fixture.registration "Carol@x.com" "carol")
                   [Fixture.account (Some 0) None]) in
  fst (UsersService.findByEmail "Carol@x.com" s') = Ok None
  /\ (forall t,
         fst (Fixture.login_as "Carol@x.com" "Passw0rd!" t s')
         = Err (UnauthorizedException "Invalid credentials")).
Proof.
  apply (create_with_uppercase_address_is_unreachable
           Fixture.bcrypt Fixture.jwtService Fixture.appConfig
           "u3" 1000 (Fixture.registration "Carol@x.com" "carol")
           [Fixture.account (Some 0) None]
           (Some (UsersService.transformToResponseDto
                    (UsersService.new_row
                       "u3" 1000 (Fixture.registration "Carol@x.com" "carol")
                       "$2b$Passw0rd!")))).
  - reflexivity.
  - reflexivity.
  - intros x [<-|[]]. discriminate.
Defined.

(** ** What a response never carries *)

Lemma transform_discloses_nothing (u : User) :
  discloses_nothing (UsersService.transformToResponseDto u).
Proof. repeat split. Qed.

Lemma login_ok_user
      (bcrypt : Bcrypt) (jwtService : JwtService) (appConfig : AppConfig)
      (dto : LoginDto) (now : Z) (s : Store) (granted : AuthResponse) :
  fst (AuthService.login bcrypt jwtService appConfig dto now s) = Ok granted ->
  exists u, auth_user granted = UsersService.transformToResponseDto u.
Proof.
  rewrite login_run. cbv zeta.
  destruct (UsersService.isAccountLocked (login_email dto) now s)
    as [[[|]|x] s1]; try discriminate.
  destruct (account_of (toLowerCase (login_email dto)) s1) as [user|];
    [|discriminate].
  destruct (negb (bcrypt_compare bcrypt (login_password dto)
                                 (users.password user))); [discriminate|].
  destruct (negb (users.isActive user)); [discriminate|].
  destruct (first (filter _ _)) as [u|]; [|discriminate].
  cbn [fst]. intros [= <-]. now exists u.
Qed.

(** X25: no response object that leaves the services carries the
    password hash, a verification or reset token, the reset expiry, the
    failed-attempt counter, the lock or the two-factor secret: not the
    one of [findOne], [findByEmail], [findByUsername], of a page of
    [findAll], of [create], of a granted [login], nor the user that
    [JwtStrategy.validate] attaches to the request. *)
Theorem responses_disclose_nothing :
  forall (bcrypt : Bcrypt) (jwtService : JwtService) (appConfig : AppConfig)
         (s : Store) (d : UserResponseDto.t),
    (forall id, fst (UsersService.findOne id s) = Ok d -> discloses_nothing d)
    /\ (forall email,
           fst (UsersService.findByEmail email s) = Ok (Some d) ->
           discloses_nothing d)
    /\ (forall username,
           fst (UsersService.findByUsername username s) = Ok (Some d) ->
           discloses_nothing d)
    /\ (forall q page,
           fst (UsersService.findAll q s) = Ok page ->
           In d (PaginatedUserResponseDto.data page) -> discloses_nothing d)
    /\ (forall newId now dto,
           fst (UsersService.create bcrypt AuthService.alone newId now dto s)
           = Ok (Some d) ->
           discloses_nothing d)
    /\ (forall dto now granted,
           fst (AuthService.login bcrypt jwtService appConfig dto now s)
           = Ok granted ->
           auth_user granted = d -> discloses_nothing d)
    /\ (forall payload,
           fst (JwtStrategy.validate payload s) = Ok d -> discloses_nothing d).
Proof.
  intros bcrypt jwtService appConfig s d.
  split; [|split; [|split; [|split; [|split; [|split]]]]].
  - intros id. unfold UsersService.findOne, bind. rewrite findUserById_run.
    destruct (first (filter (by_id id) s)); [|discriminate].
    cbn. intros [= <-]. apply transform_discloses_nothing.
  - intros email. unfold UsersService.findByEmail, bind, db_select, ret.
    cbn [fst]. destruct (first (filter _ s)); [|discriminate].
    cbn. intros [= <-]. apply transform_discloses_nothing.
  - intros username. unfold UsersService.findByUsername, bind, db_select, ret.
    cbn [fst]. destruct (first (filter _ s)); [|discriminate].
    cbn. intros [= <-]. apply transform_discloses_nothing.
  - intros q page Hp Hin.
    destruct (findAll_data q s) as [l [page' [Hrun Hd]]].
    rewrite Hrun in Hp. cbn [fst] in Hp. injection Hp as <-.
    rewrite Hd in Hin. apply in_map_iff in Hin as [u [<- _]].
    apply transform_discloses_nothing.
  - intros newId now dto Hc.
    destruct (create_success bcrypt newId now dto s _ Hc) as [Hr _].
    injection Hr as ->. apply transform_discloses_nothing.
  - intros dto now granted Hg <-.
    destruct (login_ok_user bcrypt jwtService appConfig dto now s granted Hg)
      as [u ->].
    apply transform_discloses_nothing.
  - intros payload. rewrite validate_run.
    destruct (first (filter _ s)) as [u|]; [|discriminate].
    destruct (users.isActive u); [|discriminate].
    cbn. intros [= <-]. apply transform_discloses_nothing.
Qed.

Lemma responses_disclose_nothing_witness :
  let stored := UsersService.transformToResponseDto
                  (Fixture.account (Some 0) None) in
  let created := UsersService.transformToResponseDto
                   (UsersService.new_row
                      "u3" 1000 (Fixture.registration "c@x.com" "carol")
                      "$2b$Passw0rd!") in
  let logged_in := UsersService.transformToResponseDto
                     (UsersService.set_reset
                        2000 (Fixture.account (Some 0) None)) in
  (discloses_nothing stored /\ discloses_nothing stored
   /\ discloses_nothing stored /\ discloses_nothing stored)
  /\ discloses_nothing created
  /\ discloses_nothing logged_in
  /\ discloses_nothing stored.
Proof.
  intros stored created logged_in.
  destruct (responses_disclose_nothing
              Fixture.bcrypt Fixture.jwtService Fixture.appConfig
              [Fixture.account (Some 0) None] stored)
    as [H1 [H2 [H3 [H4 [_ [_ H7]]]]]].
  destruct (responses_disclose_nothing
              Fixture.bcrypt Fixture.jwtService Fixture.appConfig
              [Fixture.account (Some 0) None] created)
    as [_ [_ [_ [_ [H5 _]]]]].
  destruct (responses_disclose_nothing
              Fixture.bcrypt Fixture.jwtService Fixture.appConfig
              [Fixture.account (Some 0) None] logged_in)
    as [_ [_ [_ [_ [_ [H6 _]]]]]].
  split; [split; [|split; [|split]] | split; [|split]].
  - apply (H1 "u1"). reflexivity.
  - apply (H2 "A@x.com"). reflexivity.
  - apply (H3 "Alice"). reflexivity.
  - apply (H4 {| QueryUserDto.page := None; QueryUserDto.limit := None |}
              {| PaginatedUserResponseDto.data := [stored];
                 PaginatedUserResponseDto.total := 1;
                 PaginatedUserResponseDto.page := 1;
                 PaginatedUserResponseDto.limit := 10;
                 PaginatedUserResponseDto.totalPages := 1;
                 PaginatedUserResponseDto.hasNextPage := false;
                 PaginatedUserResponseDto.hasPreviousPage := false |}).
    + reflexivity.
    + left. reflexivity.
  - apply (H5 "u3" 1000 (Fixture.registration "c@x.com" "carol")). reflexivity.
  - apply (H6 {| login_email := "a@x.com"; login_password := "Right1!" |} 2000
              {| auth_user := logged_in;
                 auth_accessToken := "access-secret:u1";
                 auth_refreshToken := Some "refresh-secret:u1" |}).
    + reflexivity.
    + reflexivity.
  - apply (H7 {| jwt_sub := "u1"; jwt_email := "a@x.com";
                 jwt_username := "alice"; jwt_role := USER |}).
    reflexivity.
Defined.


(** ** Reactivation *)

Section Reactivation.

Variable bcrypt : Bcrypt.
Variable jwtService : JwtService.
Variable appConfig : AppConfig.

(** X26: [activateUser] undoes [deactivateUser]: between the two, a
    login of the account with its password fails with "Account is
    deactivated"; after both, an account that carries no lock and is
    stored under a lower-case address logs in again. *)
Theorem reactivated_account_can_login :
  forall (s : Store) (a : User) (pw : string) (t1 t2 t3 : Z),
    unique_emails s -> In a s ->
    toLowerCase (users.email a) = users.email a ->
    users.lockUntil a = None ->
    bcrypt_compare bcrypt pw (users.password a) = true ->
    let s1 := snd (UsersController.deactivateUser
                     AuthService.alone (users.id a) t1 s) in
    let s2 := snd (UsersController.activateUser
                     AuthService.alone (users.id a) t2 s1) in
    fst (AuthService.login bcrypt jwtService appConfig
                           {| login_email := users.email a;
                              login_password := pw |} t3 s1)
    = Err (UnauthorizedException "Account is deactivated")
    /\ exists granted,
        fst (AuthService.login bcrypt jwtService appConfig
                               {| login_email := users.email a;
                                  login_password := pw |} t3 s2)
        = Ok granted.
Proof.
  intros s a pw t1 t2 t3 Hu Hin Hlow Hl Hpw s1 s2.
  set (off := UsersService.apply_update (UsersController.set_active false) t1).
  set (on := UsersService.apply_update (UsersController.set_active true) t2).
  assert (Hoff : keeps_keys off) by (apply apply_update_keeps_keys; reflexivity).
  assert (Hon : keeps_keys on) by (apply apply_update_keeps_keys; reflexivity).
  assert (Hself : by_id (users.id a) a = true)
    by (unfold by_id; apply String.eqb_refl).
  destruct (first_filter_exists _ s a Hin Hself) as [v Hv].
  assert (H1 : s1 = map (fun r => if by_id (users.id a) r then off r else r) s).
  { subst s1. unfold UsersController.deactivateUser.
    destruct (update_without_keys (users.id a) t1
                                  (UsersController.set_active false) s v Hv
                                  eq_refl eq_refl) as [r ->].
    reflexivity. }
  assert (Hv1 : first (filter (by_id (users.id a)) s1) = Some (off v)).
  { rewrite H1, first_by_id_after_update by reflexivity. now rewrite Hv. }
  assert (H2 : s2 = map (fun r => if by_id (users.id a) r then on r else r) s1).
  { subst s2. unfold UsersController.activateUser.
    destruct (update_without_keys (users.id a) t2
                                  (UsersController.set_active true) s1 (off v)
                                  Hv1 eq_refl eq_refl) as [r ->].
    reflexivity. }
  assert (Hu1 : unique_emails s1)
    by (rewrite H1; now apply updated_by_id_unique).
  assert (Hin1 : In (off a) s1)
    by (rewrite H1; now apply in_updated_by_id).
  assert (Hu2 : unique_emails s2)
    by (rewrite H2; now apply updated_by_id_unique).
  assert (Hin2 : In (on (off a)) s2)
    by (rewrite H2; now apply in_updated_by_id).
  split.
  - pose proof (login_deactivated bcrypt jwtService appConfig
                                  s1 (off a) pw t3 Hu1 Hin1 Hlow Hl Hpw eq_refl)
      as H.
    cbn [users.email off UsersService.apply_update UsersController.set_active
         UpdateUserDto.email UsersService.or_else] in H.
    now rewrite H.
  - destruct (login_success_with_stored_email
                bcrypt jwtService appConfig s2 (on (off a)) pw t3
                Hu2 Hin2 Hlow) as [H _].
    + cbn. rewrite Hl. discriminate.
    + exact Hpw.
    + reflexivity.
    + exact H.
Qed.

End Reactivation.

Lemma reactivated_account_can_login_witness :
  let s1 := snd (UsersController.deactivateUser
                   AuthService.alone "u1" 1000
                   [Fixture.account (Some 0) None]) in
  let s2 := snd (UsersController.activateUser AuthService.alone "u1" 1500 s1) in
  fst (Fixture.login_as "a@x.com" "Right1!" 2000 s1)
  = Err (UnauthorizedException "Account is deactivated")
  /\ exists granted,
      fst (Fixture.login_as "a@x.com" "Right1!" 2000 s2) = Ok granted.
Proof.
  apply (reactivated_account_can_login
           Fixture.bcrypt Fixture.jwtService Fixture.appConfig
           [Fixture.account (Some 0) None] (Fixture.account (Some 0) None)
           "Right1!" 1000 1500 2000).
  - repeat constructor; simpl; tauto.
  - simpl; tauto.
  - reflexivity.
  - reflexivity.
  - reflexivity.
Defined.
